(** * Valdris Time & Celestial: calendar clock, moons, festivals, duration estimator

    A shallow embedding of the time engine (calendar, [advanceTime], [setTime],
    moon phases, narrative duration estimation) and of the celestial tracker
    (celestial events, festivals), with the properties checked against them;
    further the domain registry of the core state and the event bus.

    JavaScript numbers are embedded as [Z], [%] is the truncated remainder
    [Z.rem], and strings are [string]s of 8-bit code units. The code's
    numbers are doubles: the embedding is the code's arithmetic as long as
    every value stays an integer below 2^53; [exactCall] names calls of
    [advanceTime] on which that holds. *)

From Stdlib Require Import ZArith List String Ascii Bool Lia DecimalString.
Import ListNotations.
Open Scope string_scope.
Open Scope list_scope.
Open Scope Z_scope.

Set Implicit Arguments.

(** ** Completions of a JavaScript call *)

Inductive ErrorKind := InvalidArgument | TypeError | ReferenceError.

(** A call either returns normally or throws (for an [async] function:
    the promise is fulfilled or rejected). *)
Inductive Outcome (A : Type) :=
| Returned (a : A)
| Raised (e : ErrorKind).

Arguments Raised {A} e.

(** ** Loops *)

(** [while (cond s) s = body s] run for at most [fuel] iterations. *)
Fixpoint while {A : Type} (fuel : nat) (cond : A -> bool) (body : A -> A) (s : A) : A :=
  match fuel with
  | O => s
  | S fuel' => if cond s then while fuel' cond body (body s) else s
  end.

(** [for (i = lo; i < hi; i++) acc += f i], as a sum over [count] indices from [lo]. *)
Fixpoint sum_from (f : Z -> Z) (lo : Z) (count : nat) : Z :=
  match count with
  | O => 0
  | S n => f lo + sum_from f (lo + 1) n
  end.

Definition sum_range (f : Z -> Z) (lo hi : Z) : Z := sum_from f lo (Z.to_nat (hi - lo)).

(** [arr[i]] for a JavaScript number index: [undefined] out of range. *)
Definition js_index {A : Type} (l : list A) (i : Z) : option A :=
  if i <? 0 then None else nth_error l (Z.to_nat i).

(** ** The Valdris calendar *)

Record MonthDef := mkMonth { m_name : string; m_days : Z; m_season : string }.

Definition MONTHS : list MonthDef :=
  [ mkMonth "Frostmorn" 30 "winter";
    mkMonth "Deepsnow" 28 "winter";
    mkMonth "Thawbreak" 31 "spring";
    mkMonth "Rainbloom" 30 "spring";
    mkMonth "Sunrise" 31 "spring";
    mkMonth "Highsun" 30 "summer";
    mkMonth "Goldpeak" 31 "summer";
    mkMonth "Harvest" 31 "autumn";
    mkMonth "Leaffall" 30 "autumn";
    mkMonth "Dimlight" 30 "autumn";
    mkMonth "Darkeve" 30 "winter";
    mkMonth "Stillnight" 29 "winter" ].

Definition DAYS_OF_WEEK : list string :=
  [ "Firstday"; "Seconday"; "Thirdsday"; "Fourthday"; "Fifthday"; "Sixthday"; "Restday" ].

Definition getMonthLength (month year : Z) : Z :=
  match js_index MONTHS (month - 1) with
  | None => 30
  | Some monthData =>
      if (month =? 12) && (Z.rem year 4 =? 0) then 30 else m_days monthData
  end.

Definition getMonthData (month : Z) : MonthDef :=
  match js_index MONTHS (month - 1) with
  | Some md => md
  | None => mkMonth "Frostmorn" 30 "winter"
  end.

Definition getYearLength (year : Z) : Z :=
  sum_range (fun m => getMonthLength m year) 1 13.

(** The [totalDays] accumulator of [calculateDayOfWeek]: days since
    year 1, month 1, day 1. *)
Definition totalDays (year month day : Z) : Z :=
  sum_range getYearLength 1 year
  + sum_range (fun m => getMonthLength m year) 1 month
  + (day - 1).

Definition calculateDayOfWeek (year month day : Z) : option string :=
  js_index DAYS_OF_WEEK (Z.rem (totalDays year month day) 7).

(** ** Moon data *)

Definition MOON_PHASES : list string :=
  [ "new"; "waxing_crescent"; "first_quarter"; "waxing_gibbous";
    "full"; "waning_gibbous"; "last_quarter"; "waning_crescent" ].

Definition LUNARA_CYCLE : Z := 28.
Definition VEIL_CYCLE : Z := 35.

Record MoonState := mkMoon {
  phase : option string;
  dayInCycle : Z;
  visible : option bool;
  daysUntilFull : Z;
  daysUntilNew : Z;
  effects : list string;
  previousPhase : option string
}.

Record Moons := mkMoons { lunara : MoonState; veil : MoonState }.

(** ** The time state *)

(** The calendar fields, the derived names and the moons. The weather, the
    sun times, the settings and the update stamp are not read by the
    functions embedded here and are left out. *)
Record TimeState := mkTime {
  year : Z;
  month : Z;
  day : Z;
  hour : Z;
  minute : Z;
  monthName : string;
  season : string;
  dayOfWeek : option string;
  moons : Moons;
  celestialEffects : list string
}.

Definition createDefaultTimeState : TimeState :=
  {| year := 2847; month := 7; day := 14; hour := 18; minute := 0;
     monthName := "Harvest"; season := "autumn"; dayOfWeek := Some "Thirdsday";
     moons :=
       {| lunara := {| phase := Some "waxing_gibbous"; dayInCycle := 11; visible := None;
                       daysUntilFull := 3; daysUntilNew := 17; effects := [];
                       previousPhase := None |};
          veil := {| phase := Some "new"; dayInCycle := 0; visible := Some false;
                     daysUntilFull := 17; daysUntilNew := 0; effects := [];
                     previousPhase := None |} |};
     celestialEffects := [] |}.

Definition with_clock (s : TimeState) (y mo d h mi : Z) : TimeState :=
  {| year := y; month := mo; day := d; hour := h; minute := mi;
     monthName := monthName s; season := season s; dayOfWeek := dayOfWeek s;
     moons := moons s; celestialEffects := celestialEffects s |}.

Definition updateDerivedValues (s : TimeState) : TimeState :=
  let monthData := getMonthData (month s) in
  {| year := year s; month := month s; day := day s; hour := hour s; minute := minute s;
     monthName := m_name monthData; season := m_season monthData;
     dayOfWeek := calculateDayOfWeek (year s) (month s) (day s);
     moons := moons s; celestialEffects := celestialEffects s |}.

(** ** The domain store and the event bus *)

(** The ['time'] domain of the shared state: [getDomainState] yields [null]
    when the domain was never written. *)
Definition Store := option TimeState.

Definition getDomainState (st : Store) : option TimeState := st.

(** The write of the owning extension: the domain now holds [data]. *)
Definition setDomainState (data : TimeState) : Store := Some data.

Inductive Event :=
| timeAdvanced (oldTime newTime : TimeState) (minutesElapsed : Z)
| newDay (date : TimeState)
| newMonth (date : TimeState)
| newYear (date : TimeState)
| timeSet (oldTime newTime : TimeState)
| moonPhaseChanged (moon : string) (oldPhase : string) (newPhase : option string).

(** What a call leaves behind. [emitted] lists the events the time engine
    itself sends on the bus, in order; the store's own change notification is
    not part of it. *)
Record Call (A : Type) := mkCall {
  value : A;            (* what the promise resolves to *)
  store : Store;        (* the domain afterwards *)
  emitted : list Event
}.

(** ** Moon phase system *)

(** [a === b] on a possibly-undefined string field against a literal. *)
Definition phase_is (p : option string) (lit : string) : bool :=
  match p with Some x => String.eqb x lit | None => false end.

Definition getMoonEffects (moon : string) (ph : option string) : list string :=
  if String.eqb moon "lunara" then
    if phase_is ph "full" then
      [ "Undead +20% active"; "Lycanthrope transformation"; "Tides high"; "Moonlight bright" ]
    else if phase_is ph "new" then
      [ "Undead -10% active"; "Dark vision impaired"; "Stealth enhanced" ]
    else if phase_is ph "waxing_gibbous" || phase_is ph "waning_gibbous" then
      [ "Undead +10% active" ]
    else []
  else if String.eqb moon "veil" then
    if phase_is ph "full" then
      [ "Shadow magic enhanced"; "Veil between worlds thin"; "Spirit activity high" ]
    else if phase_is ph "new" then
      [ "Shadow magic weakened"; "Spirits dormant" ]
    else []
  else [].

(** [Math.floor(dayInCycle / (cycle / 8))]: the quotient [cycle / 8] is the
    exact binary fraction 3.5 or 4.375, so the floor is that of the rational
    [8 * dayInCycle / cycle]. *)
Definition phaseIndex (d cycle : Z) : Z := (8 * d) / cycle.

(** [x || fallback] on a number. *)
Definition or_else (x fallback : Z) : Z := if x =? 0 then fallback else x.

Definition updateCelestialEffects (m : Moons) : list string :=
  (if phase_is (phase (lunara m)) "full" && phase_is (phase (veil m)) "full"
   then [ "Convergence Night - All magical effects doubled" ] else [])
  ++ (if phase_is (phase (lunara m)) "full" && (dayInCycle (veil m) =? VEIL_CYCLE / 2)
      then [ "Veil's Eclipse - Undead surge, shadow magic peaks" ] else [])
  ++ (if phase_is (phase (lunara m)) "new" && phase_is (phase (veil m)) "new"
      then [ "Void Night - Near total darkness, aberrations stir" ] else []).

Definition advanceLunara (l : MoonState) : MoonState :=
  let d := Z.rem (dayInCycle l + 1) LUNARA_CYCLE in
  let ph := js_index MOON_PHASES (phaseIndex d LUNARA_CYCLE) in
  {| phase := ph; dayInCycle := d; visible := visible l;
     daysUntilFull := Z.rem (LUNARA_CYCLE / 2 - d + LUNARA_CYCLE) LUNARA_CYCLE;
     daysUntilNew := or_else (Z.rem (LUNARA_CYCLE - d) LUNARA_CYCLE) LUNARA_CYCLE;
     effects := getMoonEffects "lunara" ph;
     previousPhase := ph |}.

Definition advanceVeil (v : MoonState) : MoonState :=
  let d := Z.rem (dayInCycle v + 1) VEIL_CYCLE in
  let ph := js_index MOON_PHASES (phaseIndex d VEIL_CYCLE) in
  {| phase := ph; dayInCycle := d; visible := Some (negb (phase_is ph "new"));
     daysUntilFull := Z.rem (VEIL_CYCLE / 2 - d + VEIL_CYCLE) VEIL_CYCLE;
     daysUntilNew := or_else (Z.rem (VEIL_CYCLE - d) VEIL_CYCLE) VEIL_CYCLE;
     effects := getMoonEffects "veil" ph;
     previousPhase := ph |}.

(** [if (old && old !== phase) emit('moonPhaseChanged', ...)] *)
Definition phaseChange (moon : string) (old new : option string) : list Event :=
  match old with
  | Some o =>
      if negb (String.eqb o "") && negb (phase_is new o)
      then [moonPhaseChanged moon o new]
      else []
  | None => []
  end.

Definition updateMoonPhases (s : TimeState) : TimeState * list Event :=
  let l := advanceLunara (lunara (moons s)) in
  let v := advanceVeil (veil (moons s)) in
  let m := {| lunara := l; veil := v |} in
  ({| year := year s; month := month s; day := day s; hour := hour s; minute := minute s;
      monthName := monthName s; season := season s; dayOfWeek := dayOfWeek s;
      moons := m; celestialEffects := updateCelestialEffects m |},
   phaseChange "lunara" (previousPhase (lunara (moons s))) (phase l)
   ++ phaseChange "veil" (previousPhase (veil (moons s))) (phase v)).

(** ** Time advancement *)

(** The [oldTime] copy is shallow: it shares the moon objects with the state,
    and [updateMoonPhases] changes those in place, so a listener reads the
    old clock fields with the moons of the updated state. *)
Definition sharedMoons (oldTime state : TimeState) : TimeState :=
  {| year := year oldTime; month := month oldTime; day := day oldTime;
     hour := hour oldTime; minute := minute oldTime;
     monthName := monthName oldTime; season := season oldTime;
     dayOfWeek := dayOfWeek oldTime;
     moons := moons state; celestialEffects := celestialEffects oldTime |}.

(** [while (state.minute >= 60) { state.minute -= 60; state.hour++; }]

    For a minute count below 2^53 this is the code's loop. On doubles of
    2^59 and more [state.minute -= 60] rounds back to the same value and the
    code's loop does not end; the embedding does not follow the code
    there. *)
Definition minuteOverflow (s : TimeState) : TimeState :=
  while (Z.to_nat (minute s / 60))
        (fun s => minute s >=? 60)
        (fun s => with_clock s (year s) (month s) (day s) (hour s + 1) (minute s - 60))
        s.

(** [while (state.hour >= 24) { state.hour -= 24; state.day++; dayAdvanced = true; }] *)
Definition hourOverflow (s : TimeState) : TimeState * bool :=
  while (Z.to_nat (hour s / 24))
        (fun '(s, _) => hour s >=? 24)
        (fun '(s, _) =>
           (with_clock s (year s) (month s) (day s + 1) (hour s - 24) (minute s), true))
        (s, false).

(** The month-boundary loop; [monthLength] is read once, before the loop. *)
Definition dayOverflow (s : TimeState) : TimeState * bool * bool :=
  let monthLength := getMonthLength (month s) (year s) in
  while (Z.to_nat (day s / monthLength))
        (fun '(s, _, _) => day s >? monthLength)
        (fun '(s, monthAdvanced, yearAdvanced) =>
           let d := day s - monthLength in
           let mo := month s + 1 in
           if mo >? 12
           then (with_clock s (year s + 1) 1 d (hour s) (minute s), true, true)
           else (with_clock s (year s) mo d (hour s) (minute s), true, yearAdvanced))
        (s, false, false).

Definition advanceTime (minutes : Z) (silent : bool) (st : Store)
  : Outcome (Call (option TimeState)) :=
  if minutes <=? 0 then Returned (mkCall (getDomainState st) st [])
  else
    let state := match getDomainState st with
                 | Some s => s
                 | None => createDefaultTimeState
                 end in
    let oldTime := state in
    let state := with_clock state (year state) (month state) (day state) (hour state)
                            (minute state + minutes) in
    let state := minuteOverflow state in
    let '(state, dayAdvanced) := hourOverflow state in
    let '(state, monthAdvanced, yearAdvanced) := dayOverflow state in
    let state := updateDerivedValues state in
    let '(state, moonEvents) :=
      if dayAdvanced then updateMoonPhases state else (state, []) in
    let events :=
      if silent then []
      else [timeAdvanced (sharedMoons oldTime state) state minutes]
           ++ (if dayAdvanced then [newDay state] else [])
           ++ (if monthAdvanced then [newMonth state] else [])
           ++ (if yearAdvanced then [newYear state] else []) in
    Returned (mkCall (Some state) (setDomainState state) (moonEvents ++ events)).

(** ** Setting the time *)

(** The partial update object: an absent field is [undefined]. *)
Record PartialTime := mkPartial {
  new_year : option Z;
  new_month : option Z;
  new_day : option Z;
  new_hour : option Z;
  new_minute : option Z
}.

Definition or_keep (o : option Z) (old : Z) : Z :=
  match o with Some v => v | None => old end.

Definition setTime (newTime : PartialTime) (st : Store) : Outcome (Call TimeState) :=
  let state := match getDomainState st with
               | Some s => s
               | None => createDefaultTimeState
               end in
  let oldTime := state in
  let y := or_keep (new_year newTime) (year state) in
  let mo := or_keep (new_month newTime) (month state) in
  let d := or_keep (new_day newTime) (day state) in
  let h := or_keep (new_hour newTime) (hour state) in
  let mi := or_keep (new_minute newTime) (minute state) in
  let mo := Z.max 1 (Z.min 12 mo) in
  let d := Z.max 1 (Z.min (getMonthLength mo y) d) in
  let h := Z.max 0 (Z.min 23 h) in
  let mi := Z.max 0 (Z.min 59 mi) in
  let state := with_clock state y mo d h mi in
  let state := updateDerivedValues state in
  let '(state, moonEvents) := updateMoonPhases state in
  Returned (mkCall state (setDomainState state)
                   (moonEvents ++ [timeSet (sharedMoons oldTime state) state])).

(** ** Absolute time *)

(** Minutes since the epoch (year 1, month 1, day 1, 00:00), counting days
    the way [calculateDayOfWeek] does, with the calendar's own month lengths. *)
Definition absoluteMinutes (s : TimeState) : Z :=
  ((totalDays (year s) (month s) (day s)) * 24 + hour s) * 60 + minute s.

(** The calendar invariant on the day field. *)
Definition dayInRange (s : TimeState) : Prop :=
  1 <= day s <= getMonthLength (month s) (year s).

(** ** Skip targets *)

Definition targetHourOf (target : string) : option Z :=
  if String.eqb target "morning" then Some 7
  else if String.eqb target "noon" then Some 12
  else if String.eqb target "evening" then Some 18
  else if String.eqb target "night" then Some 21
  else if String.eqb target "midnight" then Some 0
  else None.

Definition calculateSkipToMinutes (currentTime : TimeState) (target : string) : Z :=
  let currentHour := hour currentTime in
  let currentMinute := minute currentTime in
  match targetHourOf target with
  | None => 0
  | Some targetHour =>
      let hoursToSkip := targetHour - currentHour in
      let hoursToSkip := if hoursToSkip <=? 0 then hoursToSkip + 24 else hoursToSkip in
      hoursToSkip * 60 - currentMinute
  end.

(** ** Regular expressions of the duration patterns *)

(** The fragment of JavaScript regular expressions the pattern table uses.
    All patterns carry the [i] flag and at most one capturing group. *)
Inductive regex :=
| Str (lit : string)        (* literal characters *)
| Digit                     (* \d *)
| Space                     (* \s *)
| Cat (r1 r2 : regex)       (* r1r2 *)
| Alt (r1 r2 : regex)       (* r1|r2 *)
| Star (r : regex)          (* r* *)
| Plus (r : regex)          (* r+ *)
| Opt (r : regex)           (* r? *)
| Group (r : regex)         (* (?:r) *)
| Capture (r : regex).      (* (r) *)

(** The pattern text, as [RegExp.prototype.source] gives it. *)
Fixpoint regex_source (r : regex) : string :=
  match r with
  | Str lit => lit
  | Digit => "\d"
  | Space => "\s"
  | Cat r1 r2 => regex_source r1 ++ regex_source r2
  | Alt r1 r2 => regex_source r1 ++ "|" ++ regex_source r2
  | Star r1 => regex_source r1 ++ "*"
  | Plus r1 => regex_source r1 ++ "+"
  | Opt r1 => regex_source r1 ++ "?"
  | Group r1 => "(?:" ++ regex_source r1 ++ ")"
  | Capture r1 => "(" ++ regex_source r1 ++ ")"
  end%string.

(** A tree reads back from its source the way it is built: a quantifier
    applies to one atom, and an alternation inside a sequence is bracketed. *)
Definition plain_char (c : ascii) : bool :=
  let n := nat_of_ascii c in
  (((65 <=? n) && (n <=? 90)) || ((97 <=? n) && (n <=? 122)) || (n =? 32))%nat.

Definition plain (lit : string) : bool :=
  forallb plain_char (list_ascii_of_string lit) && negb (String.length lit =? 0)%nat.

Fixpoint wf_atom (r : regex) : bool :=
  match r with
  | Str lit => plain lit && (String.length lit =? 1)%nat
  | Digit | Space => true
  | Group r1 | Capture r1 => wf_top r1
  | _ => false
  end
with wf_seq (r : regex) : bool :=
  match r with
  | Str lit => plain lit
  | Digit | Space => true
  | Cat r1 r2 => wf_seq r1 && wf_seq r2
  | Alt _ _ => false
  | Star r1 | Plus r1 | Opt r1 => wf_atom r1
  | Group r1 | Capture r1 => wf_top r1
  end
with wf_top (r : regex) : bool :=
  match r with
  | Alt r1 r2 => wf_top r1 && wf_top r2
  | Str lit => plain lit
  | Digit | Space => true
  | Cat r1 r2 => wf_seq r1 && wf_seq r2
  | Star r1 | Plus r1 | Opt r1 => wf_atom r1
  | Group r1 | Capture r1 => wf_top r1
  end.

Definition is_digit (c : ascii) : bool :=
  let n := nat_of_ascii c in ((48 <=? n) && (n <=? 57))%nat.

(** [\s] on code units below 256: tab, line feed, vertical tab, form feed,
    carriage return, space, no-break space. *)
Definition is_space (c : ascii) : bool :=
  let n := nat_of_ascii c in
  (((9 <=? n) && (n <=? 13)) || (n =? 32) || (n =? 160))%nat.

(** Case folding of the [i] flag: a-z to A-Z (no other code unit folds onto
    an ASCII letter). *)
Definition canonicalize (c : ascii) : ascii :=
  let n := nat_of_ascii c in
  if ((97 <=? n) && (n <=? 122))%nat then ascii_of_nat (n - 32) else c.

Definition char_eq_i (a b : ascii) : bool :=
  Ascii.eqb (canonicalize a) (canonicalize b).

Fixpoint strip_prefix_i (lit : string) (s : list ascii) : option (list ascii) :=
  match lit with
  | EmptyString => Some s
  | String c lit' =>
      match s with
      | [] => None
      | x :: s' => if char_eq_i c x then strip_prefix_i lit' s' else None
      end
  end.

Section Matcher.
Variable R : Type.

(** A continuation receives the rest of the input and group 1. *)
Definition cont := list ascii -> option (list ascii) -> option R.
Definition matcher := list ascii -> option (list ascii) -> cont -> option R.

(** Greedy repetition; an iteration that consumes nothing is rejected. *)
Fixpoint repeat_greedy (m : matcher) (fuel : nat) (s : list ascii)
         (cap : option (list ascii)) (k : cont) : option R :=
  match fuel with
  | O => k s cap
  | S fuel' =>
      match m s cap (fun s' cap' =>
                       if (List.length s' <? List.length s)%nat
                       then repeat_greedy m fuel' s' cap' k
                       else None) with
      | Some x => Some x
      | None => k s cap
      end
  end.

(** Backtracking match of [r] at the head of [s]. *)
Fixpoint rmatch (r : regex) (s : list ascii) (cap : option (list ascii)) (k : cont)
  : option R :=
  match r with
  | Str lit =>
      match strip_prefix_i lit s with
      | Some s' => k s' cap
      | None => None
      end
  | Digit =>
      match s with
      | c :: s' => if is_digit c then k s' cap else None
      | [] => None
      end
  | Space =>
      match s with
      | c :: s' => if is_space c then k s' cap else None
      | [] => None
      end
  | Cat r1 r2 => rmatch r1 s cap (fun s' cap' => rmatch r2 s' cap' k)
  | Alt r1 r2 =>
      match rmatch r1 s cap k with
      | Some x => Some x
      | None => rmatch r2 s cap k
      end
  | Star r1 => repeat_greedy (rmatch r1) (List.length s) s cap k
  | Plus r1 =>
      rmatch r1 s cap
             (fun s' cap' => repeat_greedy (rmatch r1) (List.length s') s' cap' k)
  | Opt r1 =>
      match rmatch r1 s cap k with
      | Some x => Some x
      | None => k s cap
      end
  | Group r1 => rmatch r1 s cap k
  | Capture r1 =>
      rmatch r1 s cap
             (fun s' _ => k s' (Some (firstn (List.length s - List.length s') s)))
  end.
End Matcher.

(** [text.match(re)] without the [g] flag: the leftmost match, as its group 1
    ([Some None] when the group did not take part); [None] is [null]. *)
Fixpoint regex_search (r : regex) (s : list ascii) : option (option (list ascii)) :=
  match rmatch r s None (fun _ cap => Some cap) with
  | Some cap => Some cap
  | None =>
      match s with
      | [] => None
      | _ :: s' => regex_search r s'
      end
  end.

Definition js_match (text : string) (r : regex) : option (option (list ascii)) :=
  regex_search r (list_ascii_of_string text).

(** [match[i]]: only group 1 exists in these patterns. *)
Definition match_group (m : option (list ascii)) (i : Z) : option (list ascii) :=
  if i =? 1 then m else None.

(** [parseInt] on a captured group: the leading decimal digits, [NaN]
    ([None]) when there is none. *)
Fixpoint digits_value (acc : Z) (s : list ascii) : Z :=
  match s with
  | c :: s' =>
      if is_digit c then digits_value (10 * acc + (Z.of_nat (nat_of_ascii c) - 48)) s'
      else acc
  | [] => acc
  end.

Definition parseInt (g : option (list ascii)) : option Z :=
  match g with
  | Some (c :: s) => if is_digit c then Some (digits_value 0 (c :: s)) else None
  | _ => None
  end.

(** Decimal text of a number in a template literal. *)
Definition num_to_string (n : Z) : string := NilZero.string_of_int (Z.to_int n).

(** ** Duration patterns *)

Inductive PatternType :=
| T_hours (extract : Z)
| T_minutes (extract : Z)
| T_days (extract : Z)
| T_fixed (fixedMinutes : Z)
| T_skipTo (target : string)
| T_scene (estimate : Z).

Record DurationPattern := mkPattern {
  pattern : regex;
  ptype : PatternType;
  priority : Z
}.

Fixpoint seq (l : list regex) : regex :=
  match l with
  | [] => Str ""
  | [r] => r
  | r :: l' => Cat r (seq l')
  end.

Fixpoint alts (l : list regex) : regex :=
  match l with
  | [] => Str ""
  | [r] => r
  | r :: l' => Alt r (alts l')
  end.

(** Alternation of literal words. *)
Definition words (l : list string) : regex := alts (map Str l).

Definition ws : regex := Star Space.                      (* \s* *)
Definition s_opt : regex := Opt (Str "s").                (* s? *)
Definition later_pass : regex := Group (words ["later"; "pass"]).
Definition later_pass_passed : regex := Group (words ["later"; "pass"; "have passed"]).
Definition your_their : regex := Group (words ["your"; "their"]).

Definition DURATION_PATTERNS : list DurationPattern :=
  [ (* Explicit time jumps (highest priority) *)
    mkPattern (seq [Capture (Plus Digit); ws; Str "hour"; s_opt; ws; later_pass_passed])
              (T_hours 1) 10;
    mkPattern (seq [Capture (Plus Digit); ws; Str "minute"; s_opt; ws; later_pass_passed])
              (T_minutes 1) 10;
    mkPattern (seq [Capture (Plus Digit); ws; Str "day"; s_opt; ws; later_pass_passed])
              (T_days 1) 10;
    mkPattern (seq [Str "half"; ws; Opt (Group (seq [Str "a"; Opt (Str "n"); ws]));
                    Str "hour"; ws; later_pass])
              (T_fixed 30) 10;
    mkPattern (seq [Group (words ["a"; "an"; "one"]); ws; Str "hour"; ws; later_pass])
              (T_fixed 60) 10;
    mkPattern (seq [Group (words ["a"; "an"; "one"]); ws; Str "day"; ws; later_pass])
              (T_fixed 1440) 10;
    mkPattern (seq [Str "several"; ws; Str "hour"; s_opt; ws; later_pass])
              (T_fixed 180) 9;
    mkPattern (seq [Opt (Group (seq [Str "a"; ws])); Str "few"; ws; Str "hour"; s_opt; ws;
                    later_pass])
              (T_fixed 120) 9;
    mkPattern (seq [Opt (Group (seq [Str "a"; ws])); Str "few"; ws; Str "minute"; s_opt; ws;
                    later_pass])
              (T_fixed 10) 9;
    (* Time period jumps *)
    mkPattern (seq [Str "the"; ws; Str "next"; ws; Capture (words ["morning"; "day"])])
              (T_skipTo "morning") 8;
    mkPattern (seq [Str "the"; ws; Str "next"; ws; Str "evening"]) (T_skipTo "evening") 8;
    mkPattern (seq [Str "the"; ws; Str "next"; ws; Str "night"]) (T_skipTo "night") 8;
    mkPattern (seq [Str "the"; ws; Str "following"; ws; Capture (words ["morning"; "day"])])
              (T_skipTo "morning") 8;
    mkPattern (alts [seq [Str "dawn"; ws; Str "breaks"]; Str "sunrise";
                     seq [Str "morning"; ws; Str "comes"];
                     seq [Str "wake"; ws; Group (words ["up"; "to"])]])
              (T_skipTo "morning") 7;
    mkPattern (alts [seq [Str "night"; ws; Str "falls"]; Str "sunset";
                     seq [Str "dusk"; ws; Group (words ["falls"; "comes"])];
                     seq [Str "evening"; ws; Str "comes"]])
              (T_skipTo "evening") 7;
    mkPattern (alts [Str "midnight"; seq [Str "dead"; ws; Str "of"; ws; Str "night"]])
              (T_skipTo "midnight") 7;
    mkPattern (alts [Str "noon"; Str "midday";
                     seq [Str "middle"; ws; Str "of"; ws; Str "the"; ws; Str "day"]])
              (T_skipTo "noon") 7;
    (* Scene type detection for estimation *)
    mkPattern (seq [Group (words ["fierce"; "brutal"; "long"; "extended"]); ws;
                    Group (words ["combat"; "fight"; "battle"])])
              (T_scene 15) 5;
    mkPattern (words ["combat"; "fight"; "battle"; "attack"; "clash"; "skirmish"])
              (T_scene 5) 4;
    mkPattern (alts [seq [Str "long"; ws; Str "rest"]; Str "sleep";
                     seq [Str "camp"; ws; Str "for"; ws; Str "the"; ws; Str "night"];
                     seq [Str "retire"; ws; Str "for"; ws; Str "the"; ws;
                          Group (words ["night"; "evening"])]])
              (T_scene 480) 6;
    mkPattern (alts [seq [Str "short"; ws; Str "rest"]; Str "breather";
                     seq [Str "catch"; ws; Opt your_their; ws; Str "breath"];
                     seq [Str "take"; ws; Str "a"; ws; Str "break"]])
              (T_scene 60) 5;
    mkPattern (alts [Str "travel"; Str "journey"; Str "walk"; Str "ride"; Str "march";
                     Str "trek"; seq [Str "make"; ws; your_their; ws; Str "way"]])
              (T_scene 120) 4;
    mkPattern (seq [Str "long"; ws; Group (words ["conversation"; "discussion"; "talk"])])
              (T_scene 45) 5;
    mkPattern (words ["conversation"; "talk"; "discuss"; "speak"; "chat"]) (T_scene 15) 4;
    mkPattern (words ["meal"; "breakfast"; "lunch"; "dinner"; "supper"; "feast"; "banquet"])
              (T_scene 45) 4;
    mkPattern (seq [Str "quick"; ws; Group (words ["meal"; "bite"; "snack"])]) (T_scene 15) 5;
    mkPattern (words ["shop"; "browse"; "merchant"; "store"; "market"; "bazaar"; "trade"])
              (T_scene 30) 4;
    mkPattern (alts [Str "search"; Str "examine"; Str "investigate";
                     seq [Str "look"; ws; Str "around"]; Str "explore"; Str "scout"])
              (T_scene 20) 4;
    mkPattern (words ["train"; "practice"; "spar"; "exercise"; "drill"]) (T_scene 60) 4;
    mkPattern (words ["study"; "read"; "research"; "learn"]) (T_scene 60) 4;
    mkPattern (words ["craft"; "forge"; "brew"; "create"; "make"]) (T_scene 120) 4;
    mkPattern (words ["meditate"; "pray"; "ritual"; "ceremony"]) (T_scene 30) 4;
    mkPattern (alts [Str "wait"; Str "waiting";
                     seq [Str "bide"; ws; your_their; ws; Str "time"]])
              (T_scene 30) 3 ].

(** The pattern texts of the table, in order. *)
Definition DURATION_PATTERN_SOURCES : list string :=
  [
    "(\d+)\s*hours?\s*(?:later|pass|have passed)";
    "(\d+)\s*minutes?\s*(?:later|pass|have passed)";
    "(\d+)\s*days?\s*(?:later|pass|have passed)";
    "half\s*(?:an?\s*)?hour\s*(?:later|pass)";
    "(?:a|an|one)\s*hour\s*(?:later|pass)";
    "(?:a|an|one)\s*day\s*(?:later|pass)";
    "several\s*hours?\s*(?:later|pass)";
    "(?:a\s*)?few\s*hours?\s*(?:later|pass)";
    "(?:a\s*)?few\s*minutes?\s*(?:later|pass)";
    "the\s*next\s*(morning|day)";
    "the\s*next\s*evening";
    "the\s*next\s*night";
    "the\s*following\s*(morning|day)";
    "dawn\s*breaks|sunrise|morning\s*comes|wake\s*(?:up|to)";
    "night\s*falls|sunset|dusk\s*(?:falls|comes)|evening\s*comes";
    "midnight|dead\s*of\s*night";
    "noon|midday|middle\s*of\s*the\s*day";
    "(?:fierce|brutal|long|extended)\s*(?:combat|fight|battle)";
    "combat|fight|battle|attack|clash|skirmish";
    "long\s*rest|sleep|camp\s*for\s*the\s*night|retire\s*for\s*the\s*(?:night|evening)";
    "short\s*rest|breather|catch\s*(?:your|their)?\s*breath|take\s*a\s*break";
    "travel|journey|walk|ride|march|trek|make\s*(?:your|their)\s*way";
    "long\s*(?:conversation|discussion|talk)";
    "conversation|talk|discuss|speak|chat";
    "meal|breakfast|lunch|dinner|supper|feast|banquet";
    "quick\s*(?:meal|bite|snack)";
    "shop|browse|merchant|store|market|bazaar|trade";
    "search|examine|investigate|look\s*around|explore|scout";
    "train|practice|spar|exercise|drill";
    "study|read|research|learn";
    "craft|forge|brew|create|make";
    "meditate|pray|ritual|ceremony";
    "wait|waiting|bide\s*(?:your|their)\s*time" ].

(** ** Duration estimation *)

Record Detected := mkDetected {
  d_pattern : string;
  d_value : option string;
  d_estimate : option Z
}.

Record Estimate := mkEstimate {
  minutes : Z;
  confidence : string;
  detectedTypes : list Detected;
  skipTo : option string
}.

(** An explicit duration or a skip target replaces what was found so far. *)
Definition explicit (result : Estimate) (p : DurationPattern) (mins : Z)
           (skip : option string) (text : string) : Estimate :=
  {| minutes := mins; confidence := "high";
     detectedTypes := [ mkDetected (regex_source (pattern p)) (Some text) None ];
     skipTo := skip |}.

(** One iteration of the loop over the patterns; the state is the result
    under construction and [highestPriority]. *)
Definition scanPattern (responseText : string) (acc : Estimate * Z) (p : DurationPattern)
  : Estimate * Z :=
  let '(result, highestPriority) := acc in
  match js_match responseText (pattern p) with
  | None => acc
  | Some m =>
      if priority p <? highestPriority then acc
      else
        match ptype p with
        | T_hours extract =>
            match parseInt (match_group m extract) with
            | Some hours =>
                (explicit result p (hours * 60) (skipTo result)
                          (num_to_string hours ++ " hours")%string, priority p)
            | None => acc
            end
        | T_minutes extract =>
            match parseInt (match_group m extract) with
            | Some mins =>
                (explicit result p mins (skipTo result)
                          (num_to_string mins ++ " minutes")%string, priority p)
            | None => acc
            end
        | T_days extract =>
            match parseInt (match_group m extract) with
            | Some days =>
                (explicit result p (days * 1440) (skipTo result)
                          (num_to_string days ++ " days")%string, priority p)
            | None => acc
            end
        | T_fixed fixedMinutes =>
            (explicit result p fixedMinutes (skipTo result)
                      (num_to_string fixedMinutes ++ " minutes (fixed)")%string, priority p)
        | T_skipTo target =>
            (explicit result p (minutes result) (Some target) ("skip to " ++ target)%string,
             priority p)
        | T_scene estimate =>
            if priority p >=? highestPriority then
              ({| minutes := minutes result;
                  confidence := if String.eqb (confidence result) "high"
                                then confidence result else "medium";
                  detectedTypes := detectedTypes result
                                   ++ [ mkDetected (regex_source (pattern p)) None
                                                   (Some estimate) ];
                  skipTo := skipTo result |}, highestPriority)
            else acc
        end
  end.

(** [detectedTypes.filter(d => d.estimate).map(d => d.estimate)] *)
Definition sceneEstimates (l : list Detected) : list Z :=
  flat_map (fun d => match d_estimate d with
                     | Some e => if e =? 0 then [] else [e]
                     | None => []
                     end) l.

(** [Math.max(...l)] on a non-empty list. *)
Definition maximum (first : Z) (rest : list Z) : Z := fold_left Z.max rest first.

(** [!result.skipTo] *)
Definition no_skip (o : option string) : bool :=
  match o with
  | None => true
  | Some t => String.eqb t ""
  end.

Definition estimateSceneDuration (responseText : string) : Estimate :=
  if String.eqb responseText "" then
    {| minutes := 0; confidence := "none"; detectedTypes := []; skipTo := None |}
  else
    let initial := {| minutes := 0; confidence := "low"; detectedTypes := []; skipTo := None |} in
    let '(result, _) := fold_left (scanPattern responseText) DURATION_PATTERNS (initial, 0) in
    let result :=
      if negb (String.eqb (confidence result) "high")
         && negb (Nat.eqb (List.length (detectedTypes result)) 0)
         && no_skip (skipTo result)
      then
        match sceneEstimates (detectedTypes result) with
        | e :: rest =>
            {| minutes := maximum e rest; confidence := confidence result;
               detectedTypes := detectedTypes result; skipTo := skipTo result |}
        | [] => result
        end
      else result in
    if (minutes result =? 0) && no_skip (skipTo result)
       && String.eqb (confidence result) "low"
    then {| minutes := 3; confidence := confidence result;
            detectedTypes := detectedTypes result; skipTo := skipTo result |}
    else result.

(** ** Celestial tracker: the time state as the tracker reads it *)

(** The tracker reads [month], [day], [year] and [moons?.lunara],
    [moons?.veil]; the moons object or either moon may be missing. *)
Record MoonsView := mkMoonsView {
  v_lunara : option MoonState;
  v_veil : option MoonState
}.

Record TimeView := mkView {
  v_year : Z;
  v_month : Z;
  v_day : Z;
  v_moons : option MoonsView
}.

Definition view_of (s : TimeState) : TimeView :=
  {| v_year := year s; v_month := month s; v_day := day s;
     v_moons := Some {| v_lunara := Some (lunara (moons s)); v_veil := Some (veil (moons s)) |} |}.

Record DateView := mkDate { date_month : Z; date_day : Z }.

(** ** Celestial events *)

Record Effect := mkEffect { eff_type : string; eff_modifier : Z; eff_description : string }.

(** A rule of the event table. Its condition receives the two moons as
    the caller read them (possibly [undefined]) and the date, and may throw.
    Icons are display data and left out. *)
Record CelestialEvent := mkCelestialEvent {
  ev_key : string;
  ev_name : string;
  ev_description : string;
  ev_condition : option MoonState -> option MoonState -> DateView -> Outcome bool;
  ev_effects : list Effect;
  ev_rarity : string
}.

Record ActiveEvent := mkActive {
  id : string;
  name : string;
  description : string;
  active_effects : list Effect;
  rarity : string
}.

(** [moon.field] then a test on it: a [TypeError] when [moon] is [undefined]. *)
Definition reading (moon : option MoonState) (test : MoonState -> bool) : Outcome bool :=
  match moon with
  | Some m => Returned (test m)
  | None => Raised TypeError
  end.

(** [a && b]: [b] is evaluated only when [a] is true. *)
Definition and_also (a b : Outcome bool) : Outcome bool :=
  match a with
  | Returned true => b
  | Returned false => Returned false
  | Raised e => Raised e
  end.

Definition VEIL_cycle : Z := 35.

Definition CELESTIAL_EVENTS : list CelestialEvent :=
  [ mkCelestialEvent "convergence" "Convergence Night" "Both moons are full simultaneously"
      (fun lunara veil _ =>
         and_also (reading lunara (fun m => phase_is (phase m) "full"))
                  (reading veil (fun m => phase_is (phase m) "full")))
      [ mkEffect "magic" 2 "All magical effects doubled";
        mkEffect "undead" 50 "Undead surge";
        mkEffect "spirits" 100 "Spirits roam freely" ]
      "very_rare";
    mkCelestialEvent "veils_eclipse" "Veil's Eclipse" "The Veil passes before Lunara"
      (fun lunara veil _ =>
         and_also (reading lunara (fun m => phase_is (phase m) "full"))
                  (reading veil (fun m => dayInCycle m =? VEIL_cycle / 2)))
      [ mkEffect "shadow_magic" 50 "Shadow magic peaks";
        mkEffect "undead" 30 "Undead empowered";
        mkEffect "light_magic" (-30) "Light magic weakened" ]
      "rare";
    mkCelestialEvent "void_night" "Void Night" "Both moons are new - darkest night"
      (fun lunara veil _ =>
         and_also (reading lunara (fun m => phase_is (phase m) "new"))
                  (reading veil (fun m => phase_is (phase m) "new")))
      [ mkEffect "darkness" 3 "Near total darkness";
        mkEffect "aberrations" 50 "Aberrations stir";
        mkEffect "divination" (-50) "Divination blocked" ]
      "rare";
    mkCelestialEvent "silver_tide" "Silver Tide" "Lunara at perigee during full moon"
      (fun lunara _ _ =>
         and_also (reading lunara (fun m => phase_is (phase m) "full"))
                  (reading lunara (fun m => Z.rem (dayInCycle m) 7 =? 0)))
      [ mkEffect "tides" 4 "Extreme tides";
        mkEffect "water_magic" 20 "Water magic enhanced";
        mkEffect "coastal" (-20) "Coastal travel dangerous" ]
      "uncommon";
    mkCelestialEvent "starfall" "Starfall" "Meteor shower visible"
      (fun _ _ date =>
         Returned ((date_month date =? 8) && (date_day date >=? 10) && (date_day date <=? 15)))
      [ mkEffect "star_metal" 100 "Star metal may fall";
        mkEffect "wishes" 1 "Wishes more potent" ]
      "annual" ].

Definition activate (event : CelestialEvent) : ActiveEvent :=
  {| id := ev_key event; name := ev_name event; description := ev_description event;
     active_effects := ev_effects event; rarity := ev_rarity event |}.

(** The body of the loop: [try { if (cond) push } catch (e) { }]. *)
Definition checkRule (lunara veil : option MoonState) (date : DateView)
           (event : CelestialEvent) : list ActiveEvent :=
  match ev_condition event lunara veil date with
  | Returned true => [activate event]
  | Returned false => []
  | Raised _ => []
  end.

(** [checkCelestialEvents] over a rule table. *)
Definition checkCelestialEventsIn (rules : list CelestialEvent) (timeState : TimeView)
  : Outcome (list ActiveEvent) :=
  let lunara := match v_moons timeState with Some m => v_lunara m | None => None end in
  let veil := match v_moons timeState with Some m => v_veil m | None => None end in
  let date := {| date_month := v_month timeState; date_day := v_day timeState |} in
  match lunara, veil with
  | Some _, Some _ => Returned (flat_map (checkRule lunara veil date) rules)
  | _, _ => Returned []   (* if (!lunara || !veil) return activeEvents *)
  end.

Definition checkCelestialEvents (timeState : TimeView) : Outcome (list ActiveEvent) :=
  checkCelestialEventsIn CELESTIAL_EVENTS timeState.

(** ** Festivals *)

Record Festival := mkFestival {
  f_name : string;
  f_month : Z;
  f_day : Z;
  f_duration : Z;
  f_description : string;
  f_effects : list string;
  f_traditions : list string
}.

Definition FESTIVALS : list Festival :=
  [ mkFestival "Frostmeet" 1 1 3 "New Year celebration, honoring the dead of winter"
      [ "Shops closed first day"; "Feasting and gift-giving"; "Bonfires common" ]
      [ "Telling tales of ancestors"; "Burning effigies of the past year" ];
    mkFestival "Thaw Festival" 3 15 1 "Celebration of spring arrival"
      [ "Markets busy"; "Flower decorations everywhere" ]
      [ "Planting ceremonies"; "Spring cleaning rituals" ];
    mkFestival "Solstice of Light" 6 21 1 "Longest day, celebration of Solarus"
      [ "Temples of Solarus crowded"; "Healing magic enhanced" ]
      [ "Dawn vigils"; "Blessing of crops" ];
    mkFestival "Midsummer Eve" 7 15 2 "Festival of fey and magic"
      [ "Fey crossings more common"; "Wild magic surges possible" ]
      [ "Dancing around bonfires"; "Leaving offerings for fey" ];
    mkFestival "Harvest Moon Festival" 8 20 3 "Celebration of the harvest"
      [ "Food prices drop"; "Alcohol flows freely"; "Guards more lenient" ]
      [ "Harvest competitions"; "Feast of plenty" ];
    mkFestival "Veilnight" 10 31 1 "Night when the veil between worlds is thinnest"
      [ "Undead more active"; "Spirits can communicate"; "Necromancy enhanced" ]
      [ "Wearing masks"; "Leaving food for spirits"; "Staying indoors" ];
    mkFestival "Darkest Eve" 12 21 1 "Shortest day, honoring Nyx"
      [ "Temples of Nyx crowded"; "Shadow magic enhanced" ]
      [ "Candlelight vigils"; "Meditation on endings" ];
    mkFestival "Year's End" 12 29 2 "Final days of the year"
      [ "Reflection and preparation"; "Debts traditionally settled" ]
      [ "Burning regrets"; "Making resolutions" ] ].

(** State of the loops of [getDaysUntilDate]: [days], [m], [y]. *)
Definition MonthWalk := (Z * Z * Z)%type.

(** [while (m <= 12) { days += getMonthLength(m, y); m++; }] *)
Definition finishYear (w : MonthWalk) : MonthWalk :=
  let '(_, m, _) := w in
  while (Z.to_nat (13 - m))
        (fun '(_, m, _) => m <=? 12)
        (fun '(days, m, y) => (days + getMonthLength m y, m + 1, y))
        w.

Definition walkCond (targetMonth year : Z) (nextYear : bool) (w : MonthWalk) : bool :=
  let '(_, m, y) := w in (m <? targetMonth) || (nextYear && (y =? year)).

Definition walkBody (w : MonthWalk) : MonthWalk :=
  let '(days, m, y) := w in
  let '(m, y) := if m >? 12 then (1, y + 1) else (m, y) in
  (days + getMonthLength m y, m + 1, y).

(** [while (m < targetMonth || (nextYear && y === year)) { ... }] *)
Definition walkMonths (targetMonth year : Z) (nextYear : bool) (w : MonthWalk) : MonthWalk :=
  let '(_, m, _) := w in
  while (Z.to_nat (13 - m) + Z.to_nat targetMonth + 2)
        (walkCond targetMonth year nextYear) walkBody w.

(** [require('./time-engine.js')]. The tracker is an ES module (it uses
    [import] and [export]), in which no [require] is bound: evaluating the
    call throws a ReferenceError. *)
Definition require (specifier : string) : Outcome unit := Raised ReferenceError.

(** [getDaysUntilDate]. The call of [require] is its first statement after
    the declarations; what follows it uses the [getMonthLength] of the time
    engine. *)
Definition getDaysUntilDate (timeState : TimeView) (targetMonth targetDay : Z)
           (nextYear : bool) : Outcome Z :=
  let startMonth := v_month timeState in
  let startDay := v_day timeState in
  let year := v_year timeState in
  match require "./time-engine.js" with
  | Raised e => Raised e
  | Returned _ =>
      if (startMonth =? targetMonth) && negb nextYear then Returned (targetDay - startDay)
      else
        let days := getMonthLength startMonth year - startDay in
        let m := startMonth + 1 in
        let y := year in
        let w :=
          if nextYear && (targetMonth <=? startMonth) then
            let '(days, _, y) := finishYear (days, m, y) in (days, 1, y + 1)
          else (days, m, y) in
        let '(days, _, _) := walkMonths targetMonth year nextYear w in
        Returned (days + targetDay)
  end.

Record Upcoming := mkUpcoming {
  festival : Festival;
  daysUntil : Z;
  isToday : bool;
  isOngoing : bool
}.

(** The signed day count the loop of [getUpcomingFestivals] computes for
    one festival. *)
Definition festivalDaysUntil (timeState : TimeView) (f : Festival) : Outcome Z :=
  let currentMonth := v_month timeState in
  let currentDay := v_day timeState in
  if f_month f =? currentMonth then Returned (f_day f - currentDay)
  else if f_month f >? currentMonth then
    getDaysUntilDate timeState (f_month f) (f_day f) false
  else getDaysUntilDate timeState (f_month f) (f_day f) true.

(** One pass of the loop of [getUpcomingFestivals]: the count, then the
    [push] when the count is within the horizon. *)
Definition upcomingStep (timeState : TimeView) (daysAhead : Z)
           (upcoming : list Upcoming) (f : Festival) : Outcome (list Upcoming) :=
  match festivalDaysUntil timeState f with
  | Raised e => Raised e
  | Returned d =>
      if (d >=? 0) && (d <=? daysAhead)
      then Returned (upcoming
                     ++ [ {| festival := f; daysUntil := d; isToday := d =? 0;
                             isOngoing := (d <? 0) && (d >=? - f_duration f) |} ])
      else Returned upcoming
  end.

(** [for (const festival of FESTIVALS) { ... }]: an exception leaves the
    loop and the function. *)
Fixpoint upcomingLoop (timeState : TimeView) (daysAhead : Z)
         (fs : list Festival) (upcoming : list Upcoming) : Outcome (list Upcoming) :=
  match fs with
  | [] => Returned upcoming
  | f :: fs' =>
      match upcomingStep timeState daysAhead upcoming f with
      | Raised e => Raised e
      | Returned upcoming' => upcomingLoop timeState daysAhead fs' upcoming'
      end
  end.

(** [Array.prototype.sort] with [(a, b) => a.daysUntil - b.daysUntil]: a
    stable sort by [daysUntil]. *)
Fixpoint insertByDays (u : Upcoming) (l : list Upcoming) : list Upcoming :=
  match l with
  | [] => [u]
  | x :: l' => if daysUntil u <=? daysUntil x then u :: l else x :: insertByDays u l'
  end.

Definition sortByDays (l : list Upcoming) : list Upcoming :=
  fold_right insertByDays [] l.

Definition getUpcomingFestivals (timeState : TimeView) (daysAhead : Z)
  : Outcome (list Upcoming) :=
  match upcomingLoop timeState daysAhead FESTIVALS [] with
  | Raised e => Raised e
  | Returned upcoming => Returned (sortByDays upcoming)
  end.

(** ** Notions used by the properties *)

Unset Implicit Arguments.

(** The state [advanceTime] and [setTime] work on. *)
Definition current (st : Store) : TimeState :=
  match getDomainState st with
  | Some s => s
  | None => createDefaultTimeState
  end.

(** [n] days of the primary moon. *)
Fixpoint lunaraAfter (n : nat) (l : MoonState) : MoonState :=
  match n with
  | O => l
  | S n' => advanceLunara (lunaraAfter n' l)
  end.

(** The [dayInCycle] values of the next [n] days. *)
Definition lunaraDays (n : nat) (l : MoonState) : list Z :=
  map (fun k => dayInCycle (lunaraAfter k l)) (List.seq 1 n).

(** The days of a 28-day cycle on which the phase index is [i]. *)
Definition phaseRun (i : Z) : list Z :=
  filter (fun d => phaseIndex d LUNARA_CYCLE =? i) (map Z.of_nat (List.seq 0 28)).

(** The phase index on each day of a 28-day cycle, in order. *)
Definition lunaraPhaseIndices : list Z :=
  map (fun d => phaseIndex (Z.of_nat d) LUNARA_CYCLE) (List.seq 0 28).

(** The confidence levels of the estimator's interface. *)
Definition CONFIDENCE_LEVELS : list string := ["low"; "medium"; "high"].

(** No pattern of the table matches the text. *)
Definition unrecognized (text : string) : Prop :=
  forall p, In p DURATION_PATTERNS -> js_match text (pattern p) = None.

(** A condition that returned true. *)
Definition holds (o : Outcome bool) : bool :=
  match o with
  | Returned true => true
  | _ => false
  end.

(** A night on which both moons are full, the secondary at mid-cycle. *)
Definition doubleFullMoon : TimeView :=
  {| v_year := 2847; v_month := 8; v_day := 12;
     v_moons :=
       Some {| v_lunara := Some {| phase := Some "full"; dayInCycle := 14; visible := None;
                                   daysUntilFull := 0; daysUntilNew := 14; effects := [];
                                   previousPhase := Some "full" |};
               v_veil := Some {| phase := Some "full"; dayInCycle := 17; visible := Some true;
                                 daysUntilFull := 0; daysUntilNew := 18; effects := [];
                                 previousPhase := Some "full" |} |} |}.

(** The same date read from a state without moons. *)
Definition moonlessStarfall : TimeView :=
  {| v_year := 2847; v_month := 8; v_day := 12; v_moons := None |}.

(** A rule whose condition always throws. *)
Definition brokenRule : CelestialEvent :=
  mkCelestialEvent "broken" "Broken" "A rule that cannot be evaluated"
    (fun _ _ _ => Raised TypeError) [] "common".

(** 20 Thawbreak 2847, five days after the Thaw Festival. *)
Definition afterThaw : TimeView :=
  {| v_year := 2847; v_month := 3; v_day := 20; v_moons := None |}.

Definition thawFestival : Festival :=
  mkFestival "Thaw Festival" 3 15 1 "Celebration of spring arrival"
    [ "Markets busy"; "Flower decorations everywhere" ]
    [ "Planting ceremonies"; "Spring cleaning rituals" ].

(** ** The range in which the embedding is exact *)

(** [Number.MAX_SAFE_INTEGER]: every integer up to it is a double, and sums
    and differences of integers are exact while they stay within it. *)
Definition MAX_SAFE_INTEGER : Z := 2 ^ 53 - 1.

(** An amount and a stored state on which a call of [advanceTime] computes
    with exact integers only: the amount is at most 2^52 minutes, and the
    date and the moons' days are within 2^40, so that the minute sum, the
    hour and day counters and the day count of [calculateDayOfWeek] all
    stay below 2^53. *)
Definition exactCall (minutes : Z) (s : TimeState) : Prop :=
  minutes <= 2 ^ 52 /\
  Z.abs (year s) <= 2 ^ 40 /\ Z.abs (month s) <= 2 ^ 40 /\ Z.abs (day s) <= 2 ^ 40 /\
  Z.abs (dayInCycle (lunara (moons s))) <= 2 ^ 40 /\
  Z.abs (dayInCycle (veil (moons s))) <= 2 ^ 40.

(** The state entering the month loop: the minutes and hours carried into
    the day. *)
Definition carried (s0 : TimeState) (minutes : Z) : TimeState :=
  let total := minute s0 + minutes in
  let hours := hour s0 + total / 60 in
  with_clock s0 (year s0) (month s0) (day s0 + hours / 24) (hours mod 24) (total mod 60).




(** The targets [calculateSkipToMinutes] knows. *)
Definition SKIP_TARGETS : list string := ["morning"; "noon"; "evening"; "night"; "midnight"].

(** What the scan relies on in the pattern table: a scene rule has a positive
    estimate and a priority in [1,6]; every other rule has a priority of at
    least 7, a skip rule names a known target and a fixed rule a duration
    that is not negative. *)
Definition pattern_ok (p : DurationPattern) : bool :=
  match ptype p with
  | T_scene e => (0 <? e) && (1 <=? priority p) && (priority p <=? 6)
  | T_skipTo t => existsb (String.eqb t) SKIP_TARGETS && (7 <=? priority p)
  | T_fixed m => (0 <=? m) && (7 <=? priority p)
  | _ => 7 <=? priority p
  end.

(** An entry recorded by a scene rule. *)
Definition sceneEntry (d : Detected) : Prop :=
  d_value d = None /\ exists e, d_estimate d = Some e /\ 0 < e.

(** An entry recorded by an explicit duration or a skip rule. *)
Definition explicitEntry (d : Detected) : Prop :=
  d_estimate d = None /\ d_value d <> None.

Definition knownSkip (o : option string) : Prop :=
  o = None \/ exists t, o = Some t /\ In t SKIP_TARGETS.

(** The states of the scan over the patterns: nothing found, scene cues
    only, or an explicit rule found. *)
Definition scanning (acc : Estimate * Z) : Prop :=
  let '(r, highestPriority) := acc in
  (confidence r = "low" /\ highestPriority = 0 /\ detectedTypes r = [] /\
   skipTo r = None /\ minutes r = 0)
  \/ (confidence r = "medium" /\ highestPriority = 0 /\ detectedTypes r <> [] /\
      Forall sceneEntry (detectedTypes r) /\ skipTo r = None /\ minutes r = 0)
  \/ (confidence r = "high" /\ 7 <= highestPriority /\
      (exists d, detectedTypes r = [d] /\ explicitEntry d) /\
      0 <= minutes r /\ knownSkip (skipTo r)).

(** ** The festival of the day *)

Record CurrentFestival := mkCurrent {
  cf_festival : Festival;
  dayOfFestival : Z;
  isLastDay : bool
}.

(** The loop of [getCurrentFestival] over a festival table: the first
    festival of the current month whose days cover the current day. *)
Fixpoint findCurrentFestival (fs : list Festival) (currentMonth currentDay : Z)
  : option CurrentFestival :=
  match fs with
  | [] => None
  | f :: fs' =>
      if (f_month f =? currentMonth)
         && (currentDay >=? f_day f) && (currentDay <? f_day f + f_duration f)
      then Some {| cf_festival := f;
                   dayOfFestival := currentDay - f_day f + 1;
                   isLastDay := currentDay =? f_day f + f_duration f - 1 |}
      else findCurrentFestival fs' currentMonth currentDay
  end.

Definition getCurrentFestival (timeState : TimeView) : option CurrentFestival :=
  findCurrentFestival FESTIVALS (v_month timeState) (v_day timeState).

(** The festival's days include the date. *)
Definition covers (f : Festival) (timeState : TimeView) : Prop :=
  f_month f = v_month timeState /\
  f_day f <= v_day timeState < f_day f + f_duration f.

(** The ids of the events a check reports. *)
Definition reportedIds (o : Outcome (list ActiveEvent)) : list string :=
  match o with
  | Returned events => map id events
  | Raised _ => []
  end.

(** A time state as the tracker reads it, with both moons present. *)
Definition withMoons (y mo d : Z) (l v : MoonState) : TimeView :=
  {| v_year := y; v_month := mo; v_day := d;
     v_moons := Some {| v_lunara := Some l; v_veil := Some v |} |}.

(** ** The core state: domain owners and domain data *)

(** The registries of the core state and of the event bus are plain
    objects created by [{}]: besides the keys the code assigns, a lookup
    finds the properties every object inherits from [Object.prototype]. *)
Definition INHERITED : list string :=
  ["constructor"; "hasOwnProperty"; "isPrototypeOf"; "propertyIsEnumerable";
   "toLocaleString"; "toString"; "valueOf"; "__proto__";
   "__defineGetter__"; "__defineSetter__"; "__lookupGetter__"; "__lookupSetter__"].

Definition inherited (name : string) : bool := existsb (String.eqb name) INHERITED.

Module Core.

(** The keys of [DEFAULT_DOMAINS]. *)
Definition DEFAULT_DOMAINS : list string :=
  ["time"; "player"; "world"; "npcs"; "economy"; "factions"; "vex"].

(** [DEFAULT_DOMAINS.hasOwnProperty(domain)] *)
Definition knownDomain (domain : string) : bool :=
  existsb (String.eqb domain) DEFAULT_DOMAINS.

(** [_domainOwners]: the keys the code assigned, from domain names to
    extension ids; [None] is a key that was never assigned or was deleted. *)
Definition Owners := string -> option string.

Definition noOwners : Owners := fun _ => None.

Definition setOwner (o : Owners) (domain extensionId : string) : Owners :=
  fun d => if String.eqb d domain then Some extensionId else o d.

Definition deleteOwner (o : Owners) (domain : string) : Owners :=
  fun d => if String.eqb d domain then None else o d.

(** What [_domainOwners[domain]] evaluates to when it is not [undefined]:
    an extension id, or a property inherited from [Object.prototype]. *)
Inductive Owner :=
| Extension (extensionId : string)
| Builtin.

(** [_domainOwners[domain]]: an assigned key shadows an inherited one. *)
Definition lookupOwner (o : Owners) (domain : string) : option Owner :=
  match o domain with
  | Some x => Some (Extension x)
  | None => if inherited domain then Some Builtin else None
  end.

(** The entry when it is truthy: anything but a missing key and the empty
    string. *)
Definition ownerOf (o : Owners) (domain : string) : option Owner :=
  match lookupOwner o domain with
  | Some (Extension x) => if String.eqb x "" then None else Some (Extension x)
  | Some Builtin => Some Builtin
  | None => None
  end.

(** [_domainOwners[domain] && _domainOwners[domain] !== extensionId] *)
Definition ownedByOther (o : Owners) (domain extensionId : string) : bool :=
  match ownerOf o domain with
  | Some (Extension x) => negb (String.eqb x extensionId)
  | Some Builtin => true
  | None => false
  end.

Definition registerDomain (domain extensionId : string) (o : Owners) : bool * Owners :=
  if negb (knownDomain domain) then (false, o)
  else if ownedByOther o domain extensionId then (false, o)
  else (true, setOwner o domain extensionId).

(** [_domainOwners[domain] === extensionId] *)
Definition isDomainOwner (domain extensionId : string) (o : Owners) : bool :=
  match lookupOwner o domain with
  | Some (Extension x) => String.eqb x extensionId
  | _ => false
  end.

Definition unregisterDomain (domain extensionId : string) (o : Owners) : Owners :=
  if isDomainOwner domain extensionId o then deleteOwner o domain else o.

(** [_domainOwners[domain] || null] *)
Definition getDomainOwner (domain : string) (o : Owners) : option Owner := ownerOf o domain.

Section Domains.
(** The data of a domain: any value but [undefined]. *)
Variable V : Type.

(** The full state kept in the chat metadata: per domain, a key that was
    not assigned ([None]), [null] ([Some None]) or the domain's data. *)
Definition FullState := string -> option (option V).

(** The state a chat starts with: every default domain is [null]. *)
Definition defaultState : FullState :=
  fun d => if knownDomain d then Some None else None.

Record CoreState := mkCore {
  owners : Owners;
  fullState : FullState
}.

(** What a read of a domain gives. *)
Inductive Value :=
| Null
| Inherited
| Data (v : V).

(** [fullState[domain] !== undefined ? fullState[domain] : null] *)
Definition getDomainState (domain : string) (c : CoreState) : Value :=
  match fullState c domain with
  | Some (Some v) => Data v
  | Some None => Null
  | None => if inherited domain then Inherited else Null
  end.

Definition writeDomain (f : FullState) (domain : string) (data : V) : FullState :=
  fun d => if String.eqb d domain then Some (Some data) else f d.

(** What an awaited write leaves behind: the promise's value, the state,
    and whether ['domainChanged'] was sent. *)
Record Write := mkWrite {
  written : bool;
  after : CoreState;
  announced : bool
}.

(** [setDomainState], awaited, with the chat metadata present. [saves]
    tells whether the host's [saveMetadata] resolves; when it rejects, the
    error is caught after the domain was already assigned. *)
Definition setDomainState (domain : string) (data : V) (extensionId : string)
           (saves : bool) (c : CoreState) : Write :=
  if ownedByOther (owners c) domain extensionId then mkWrite false c false
  else
    let o := match ownerOf (owners c) domain with
             | Some _ => owners c
             | None => snd (registerDomain domain extensionId (owners c))
             end in
    let c' := mkCore o (writeDomain (fullState c) domain data) in
    if saves then mkWrite true c' true else mkWrite false c' false.

End Domains.

Arguments getDomainState {V} domain c.
Arguments setDomainState {V} domain data extensionId saves c.
Arguments mkCore {V} owners fullState.
Arguments owners {V} c.
Arguments fullState {V} c.
Arguments written {V} w.
Arguments after {V} w.
Arguments announced {V} w.
Arguments mkWrite {V} written after announced.
Arguments Null {V}.
Arguments Inherited {V}.
Arguments Data {V} v.

End Core.

(** ** The event bus *)

Module Bus.

Definition MAX_HISTORY : nat := 50.

(** A registered listener. The callback is a function, known by its
    identity and by whether it returns or throws when called; it does not
    touch the bus. *)
Record Listener := mkListener {
  callback : nat;
  returns : bool;
  once : bool;
  listener_id : option string
}.

(** [_listeners]: per event name, the listeners in the order they were
    added; an event without listeners has no entry. *)
Definition Listeners := string -> list Listener.

Record HistoryEntry := mkEntry { entry_event : string; listenerCount : nat }.

Record BusState := mkBus {
  listeners : Listeners;
  eventHistory : list HistoryEntry
}.

Definition setListeners (ls : Listeners) (event : string) (l : list Listener) : Listeners :=
  fun e => if String.eqb e event then l else ls e.

(** For an event named like an inherited property, [_listeners[event]] is
    that property and not an array: [push], [filter] and the spread of it
    throw a [TypeError]. What the bus holds after such a throw is not
    modelled. *)
Definition onArray {A : Type} (event : string) (a : A) : Outcome A :=
  if inherited event then Raised TypeError else Returned a.

(** [on(event, callback, options)] *)
Definition on (event : string) (l : Listener) (b : BusState) : Outcome BusState :=
  onArray event
    (mkBus (setListeners (listeners b) event (listeners b event ++ [l])) (eventHistory b)).

(** [off(event, callback)] *)
Definition off (event : string) (cb : nat) (b : BusState) : Outcome BusState :=
  onArray event
    (mkBus (setListeners (listeners b) event
              (filter (fun l => negb (Nat.eqb (callback l) cb)) (listeners b event)))
           (eventHistory b)).

(** [off(event, id)] with a listener id. *)
Definition offId (event : string) (lid : string) (b : BusState) : Outcome BusState :=
  onArray event
    (mkBus (setListeners (listeners b) event
              (filter (fun l => match listener_id l with
                                | Some x => negb (String.eqb x lid)
                                | None => true
                                end) (listeners b event)))
           (eventHistory b)).

(** [while (_eventHistory.length > MAX_HISTORY) _eventHistory.shift()] *)
Definition trim (h : list HistoryEntry) : list HistoryEntry :=
  while (List.length h)
        (fun h => (MAX_HISTORY <? List.length h)%nat)
        (fun h => tl h)
        h.

(** [emit(event, data)]: the callbacks called, in order, and the bus
    afterwards. A one-time listener is removed only when its callback
    returned. *)
Definition emit (event : string) (b : BusState) : Outcome (list nat * BusState) :=
  let h := trim (eventHistory b ++ [mkEntry event (List.length (listeners b event))]) in
  let called := map callback (listeners b event) in
  let kept := filter (fun l => negb (once l && returns l)) (listeners b event) in
  onArray event (called, mkBus (setListeners (listeners b) event kept) h).

End Bus.

(** ** Time display *)

(** [s.padStart(2, '0')] *)
Definition padStart2 (s : string) : string :=
  match String.length s with
  | O => "00"
  | S O => ("0" ++ s)%string
  | _ => s
  end.

Definition formatTime (hour minute : Z) : string :=
  let h := or_else (Z.rem hour 12) 12 in
  let m := padStart2 (num_to_string minute) in
  let ampm := if hour <? 12 then "AM" else "PM" in
  (num_to_string h ++ ":" ++ m ++ " " ++ ampm)%string.

Definition formatTime24 (hour minute : Z) : string :=
  (padStart2 (num_to_string hour) ++ ":" ++ padStart2 (num_to_string minute))%string.

Definition getTimeOfDay (hour : Z) : string :=
  if (hour >=? 5) && (hour <? 8) then "Early Morning"
  else if (hour >=? 8) && (hour <? 12) then "Morning"
  else if (hour >=? 12) && (hour <? 14) then "Midday"
  else if (hour >=? 14) && (hour <? 17) then "Afternoon"
  else if (hour >=? 17) && (hour <? 20) then "Evening"
  else if (hour >=? 20) && (hour <? 23) then "Night"
  else "Late Night".

(** The numbers [0 .. n-1]. *)
Definition zrange (n : nat) : list Z := map Z.of_nat (List.seq 0 n).

(** Reading a 12-hour display back (used to show that the display is
    unambiguous). *)
Definition readTime (s : string) : option (Z * Z) :=
  match index 0 ":" s with
  | Some i =>
      match NilZero.int_of_string (substring 0 i s),
            NilZero.int_of_string (substring (S i) 2 s) with
      | Some h, Some m =>
          Some (Z.of_int h mod 12 + (if String.eqb (substring (i + 4) 2 s) "PM" then 12 else 0),
                Z.of_int m)
      | _, _ => None
      end
  | None => None
  end.

Definition readTime24 (s : string) : option (Z * Z) :=
  match NilZero.int_of_string (substring 0 2 s), NilZero.int_of_string (substring 3 2 s) with
  | Some h, Some m => Some (Z.of_int h, Z.of_int m)
  | _, _ => None
  end.

(** * Properties *)

(** ** Loops *)

Lemma while_invariant (A : Type) (P : A -> Prop) (cond : A -> bool) (body : A -> A) :
  (forall s, P s -> cond s = true -> P (body s)) ->
  forall fuel s, P s -> P (while fuel cond body s).
Proof.
  intros Hstep fuel. induction fuel as [|fuel IH]; intros s Hs; simpl.
  - exact Hs.
  - destruct (cond s) eqn:Hc.
    + apply IH. apply Hstep; assumption.
    + exact Hs.
Qed.

(** A loop whose body decreases a measure has left its guard once the fuel
    covers the measure: the fuel did not cut it short. *)
Lemma while_exit (A : Type) (mu : A -> nat) (cond : A -> bool) (body : A -> A) :
  (forall s, cond s = true -> (mu (body s) < mu s)%nat) ->
  forall fuel s, (mu s <= fuel)%nat -> cond (while fuel cond body s) = false.
Proof.
  intros Hdec fuel. induction fuel as [|fuel IH]; intros s Hmu; simpl.
  - destruct (cond s) eqn:Hc; [|reflexivity].
    specialize (Hdec s Hc). lia.
  - destruct (cond s) eqn:Hc; [|exact Hc].
    apply IH. specialize (Hdec s Hc). lia.
Qed.

(** ** The calendar *)

Lemma getMonthLength_cases (month year : Z) :
  getMonthLength month year = 28 \/ getMonthLength month year = 29 \/
  getMonthLength month year = 30 \/ getMonthLength month year = 31.
Proof.
  unfold getMonthLength, js_index.
  destruct (month - 1 <? 0) eqn:Hneg; [auto|].
  apply Z.ltb_ge in Hneg.
  destruct (Z.to_nat (month - 1)) as [|[|[|[|[|[|[|[|[|[|[|[|n]]]]]]]]]]]] eqn:Hn; simpl;
    try (destruct ((month =? 12) && (Z.rem year 4 =? 0)); auto).
  all: try (destruct n; simpl; auto).
Qed.

Lemma getMonthLength_bounds (month year : Z) : 28 <= getMonthLength month year <= 31.
Proof. destruct (getMonthLength_cases month year) as [H|[H|[H|H]]]; rewrite H; lia. Qed.

(** The leap rule: month 12 has 30 days in every fourth year and 29 otherwise. *)
Lemma getMonthLength_leap (year : Z) :
  getMonthLength 12 year = if Z.rem year 4 =? 0 then 30 else 29.
Proof. unfold getMonthLength. simpl. destruct (Z.rem year 4 =? 0); reflexivity. Qed.

(** ** The cascade loops leave their guards *)

Lemma minuteOverflow_exit (s : TimeState) : minute (minuteOverflow s) < 60.
Proof.
  unfold minuteOverflow.
  pose proof (@while_exit TimeState (fun s => Z.to_nat (minute s / 60))
                (fun s => minute s >=? 60)
                (fun s => with_clock s (year s) (month s) (day s) (hour s + 1) (minute s - 60)))
    as H.
  assert (Hdec : forall s : TimeState, (minute s >=? 60) = true ->
            (Z.to_nat (minute (with_clock s (year s) (month s) (day s) (hour s + 1)
                                          (minute s - 60)) / 60)
             < Z.to_nat (minute s / 60))%nat).
  { intros t Ht. simpl. apply Z.geb_le in Ht.
    replace (minute t - 60) with (minute t + (-1) * 60) by lia.
    rewrite Z.div_add by lia.
    assert (1 <= minute t / 60) by (apply Z.div_le_lower_bound; lia). lia. }
  specialize (H Hdec (Z.to_nat (minute s / 60)) s (Nat.le_refl _)).
  cbv beta in H. rewrite Z.geb_leb in H. apply Z.leb_gt in H. exact H.
Qed.

Lemma hourOverflow_exit (s : TimeState) : hour (fst (hourOverflow s)) < 24.
Proof.
  unfold hourOverflow.
  pose proof (@while_exit (TimeState * bool) (fun p => Z.to_nat (hour (fst p) / 24))
                (fun '(s, _) => hour s >=? 24)
                (fun '(s, _) => (with_clock s (year s) (month s) (day s + 1) (hour s - 24)
                                            (minute s), true)))
    as H.
  assert (Hdec : forall p : TimeState * bool,
            (let '(s, _) := p in hour s >=? 24) = true ->
            (Z.to_nat (hour (fst (let '(s, _) := p in
                                  (with_clock s (year s) (month s) (day s + 1) (hour s - 24)
                                              (minute s), true))) / 24)
             < Z.to_nat (hour (fst p) / 24))%nat).
  { intros [t b] Ht. simpl. apply Z.geb_le in Ht.
    replace (hour t - 24) with (hour t + (-1) * 24) by lia.
    rewrite Z.div_add by lia.
    assert (1 <= hour t / 24) by (apply Z.div_le_lower_bound; lia). lia. }
  specialize (H Hdec (Z.to_nat (hour s / 24)) (s, false) (Nat.le_refl _)).
  destruct (while _ _ _ _) as [t b]. simpl.
  rewrite Z.geb_leb in H. apply Z.leb_gt in H. exact H.
Qed.

Lemma dayOverflow_exit (s : TimeState) :
  day (fst (fst (dayOverflow s))) <= getMonthLength (month s) (year s).
Proof.
  unfold dayOverflow.
  set (L := getMonthLength (month s) (year s)).
  assert (HL : 28 <= L <= 31) by apply getMonthLength_bounds.
  set (cond := fun '(s, _, _) => day s >? L).
  set (body := fun '(s0, monthAdvanced, yearAdvanced) =>
       let d := day s0 - L in
       let mo := month s0 + 1 in
       if mo >? 12
       then (with_clock s0 (year s0 + 1) 1 d (hour s0) (minute s0), true, true)
       else (with_clock s0 (year s0) mo d (hour s0) (minute s0), true, yearAdvanced)).
  pose proof (@while_exit (TimeState * bool * bool)
                (fun p => Z.to_nat (day (fst (fst p)) / L)) cond body) as H.
  assert (Hdec : forall p, cond p = true ->
            (Z.to_nat (day (fst (fst (body p))) / L) < Z.to_nat (day (fst (fst p)) / L))%nat).
  { intros [[t b1] b2] Ht. unfold cond in Ht. unfold body. simpl.
    apply Z.gtb_lt in Ht.
    assert (Hd : (day t - L) / L = day t / L - 1).
    { replace (day t - L) with (day t + (-1) * L) by lia. rewrite Z.div_add by lia. lia. }
    assert (1 <= day t / L) by (apply Z.div_le_lower_bound; lia).
    destruct (month t + 1 >? 12); simpl; rewrite Hd; lia. }
  specialize (H Hdec (Z.to_nat (day s / L)) (s, false, false) (Nat.le_refl _)).
  destruct (while _ _ _ _) as [[t b1] b2]. simpl. unfold cond in H.
  rewrite Z.gtb_ltb in H. apply Z.ltb_ge in H. exact H.
Qed.

(** ** What the cascade keeps *)

Lemma minuteOverflow_keeps (s : TimeState) :
  0 <= minute s ->
  let t := minuteOverflow s in
  moons t = moons s /\ hour t * 60 + minute t = hour s * 60 + minute s /\ 0 <= minute t.
Proof.
  intros Hm. unfold minuteOverflow.
  apply (@while_invariant TimeState
           (fun t => moons t = moons s /\
                     hour t * 60 + minute t = hour s * 60 + minute s /\ 0 <= minute t)).
  - intros t (Hmo & Hsum & Hpos) Hc. apply Z.geb_le in Hc. simpl. repeat split; lia || auto.
  - repeat split; lia || auto.
Qed.

Lemma hourOverflow_keeps (s : TimeState) :
  let '(t, dayAdvanced) := hourOverflow s in
  moons t = moons s /\ (dayAdvanced = true <-> 24 <= hour s).
Proof.
  pose proof (hourOverflow_exit s) as Hexit.
  unfold hourOverflow in *.
  assert (Hinv :
    (fun p : TimeState * bool =>
       moons (fst p) = moons s /\ hour (fst p) <= hour s /\
       (snd p = false -> fst p = s) /\ (snd p = true -> 24 <= hour s))
      (while (Z.to_nat (hour s / 24))
             (fun '(s, _) => hour s >=? 24)
             (fun '(s, _) => (with_clock s (year s) (month s) (day s + 1) (hour s - 24)
                                         (minute s), true))
             (s, false))).
  { apply while_invariant.
    - intros [t b] (Hmo & Hle & Hf & Ht) Hc. apply Z.geb_le in Hc. simpl in *.
      split; [exact Hmo|]. split; [lia|]. split; [discriminate|]. intros _. lia.
    - simpl. split; [reflexivity|]. split; [lia|]. split; [reflexivity|]. discriminate. }
  destruct (while _ _ _ _) as [t b]. simpl in *.
  destruct Hinv as (Hmo & Hle & Hf & Ht). split; [exact Hmo|].
  split; [exact Ht|]. intros H24. destruct b; [reflexivity|].
  rewrite (Hf eq_refl) in Hexit. lia.
Qed.

Lemma dayOverflow_keeps (s : TimeState) :
  moons (fst (fst (dayOverflow s))) = moons s.
Proof.
  unfold dayOverflow.
  apply (@while_invariant (TimeState * bool * bool)
           (fun p => moons (fst (fst p)) = moons s)).
  - intros [[t b1] b2] Hmo _. simpl in *.
    destruct (month t + 1 >? 12); simpl; exact Hmo.
  - reflexivity.
Qed.

(** ** Claims about the calendar clock *)

(** C1. The absolute minute count after [advanceTime m] is the count before
    plus [m]. The code reads the month length once, before the month loop, so
    a jump over two month boundaries with unequal month lengths loses or gains
    days: from the default state (14 Goldpeak 2847, 18:00) a jump of 90 days
    (129600 minutes) lands on day 11 of month 10 and the absolute count grows
    by 128160 only. *)
Theorem advanceTime_multi_month_drift :
  exists c s,
    advanceTime 129600 false (Some createDefaultTimeState) = Returned c /\
    value c = Some s /\
    (year s, month s, day s, hour s, minute s) = (2847, 10, 11, 18, 0) /\
    absoluteMinutes s = absoluteMinutes createDefaultTimeState + 129600 - 1440 /\
    absoluteMinutes s <> absoluteMinutes createDefaultTimeState + 129600.
Proof.
  set (r := advanceTime 129600 false (Some createDefaultTimeState)).
  vm_compute in r. subst r.
  eexists. eexists. split; [reflexivity|]. split; [reflexivity|].
  split; [reflexivity|].
  split; [vm_compute; reflexivity|].
  vm_compute. discriminate.
Qed.

(** C2. The day stays within the month after every mutation. [advanceTime]
    breaks it through the stale month length: from the default state, which
    is in range, a jump of 79 days (113760 minutes) ends on day 31 of month 9,
    a month of 30 days. *)
Theorem advanceTime_day_out_of_range :
  dayInRange createDefaultTimeState /\
  exists c s,
    advanceTime 113760 false (Some createDefaultTimeState) = Returned c /\
    value c = Some s /\
    (month s, day s) = (9, 31) /\
    getMonthLength (month s) (year s) = 30 /\
    ~ dayInRange s.
Proof.
  split; [unfold dayInRange; vm_compute; split; discriminate|].
  set (r := advanceTime 113760 false (Some createDefaultTimeState)).
  vm_compute in r. subst r.
  eexists. eexists. split; [reflexivity|]. split; [reflexivity|].
  split; [reflexivity|].
  split; [vm_compute; reflexivity|].
  unfold dayInRange. vm_compute. intros [_ H]. apply H. reflexivity.
Qed.

(** The [setTime] half of the invariant holds: whatever the partial input
    and the stored state, the clamped day lies within the clamped month. *)
Lemma setTime_day_in_range (newTime : PartialTime) (st : Store) :
  exists c, setTime newTime st = Returned c /\ dayInRange (value c) /\
            1 <= month (value c) <= 12 /\
            0 <= hour (value c) <= 23 /\ 0 <= minute (value c) <= 59.
Proof.
  unfold setTime. unfold updateMoonPhases. eexists. split; [reflexivity|].
  unfold dayInRange. cbn [value year month day hour minute updateDerivedValues with_clock].
  match goal with |- context [getMonthLength ?m ?y] =>
    pose proof (getMonthLength_bounds m y) end.
  lia.
Qed.

(** C3 (as the code has it). A negative amount is not rejected: the call
    returns the stored state normally, leaves the store as it was and emits
    nothing. *)
Theorem advanceTime_negative_is_noop (minutes : Z) (silent : bool) (st : Store) :
  minutes < 0 ->
  advanceTime minutes silent st = Returned (mkCall (getDomainState st) st []).
Proof.
  intros Hneg. unfold advanceTime.
  destruct (minutes <=? 0) eqn:Hle; [reflexivity|].
  apply Z.leb_gt in Hle. lia.
Qed.

Lemma advanceTime_negative_is_noop_witness :
  -5 < 0 /\
  advanceTime (-5) false (Some createDefaultTimeState)
  = Returned (mkCall (Some createDefaultTimeState) (Some createDefaultTimeState) []).
Proof.
  split; [lia|]. apply (advanceTime_negative_is_noop (-5) false (Some createDefaultTimeState)).
  lia.
Defined.

(** C3, as stated, fails: [advanceTime (-5)] does not signal
    [InvalidArgument]; it returns normally. *)
Lemma advanceTime_negative_not_rejected :
  advanceTime (-5) false (Some createDefaultTimeState) <> Raised InvalidArgument /\
  exists c, advanceTime (-5) false (Some createDefaultTimeState) = Returned c.
Proof.
  split; [discriminate|]. eexists. reflexivity.
Qed.

(** C7. With the hour in [0,23] and the minute in [0,59], a valid target
    gives a strictly positive delta: [targetHour - currentHour], plus 24 when
    that is not positive, in minutes, less the current minute; 20:00 to
    "morning" is 660. *)
Theorem calculateSkipToMinutes_forward
        (currentTime : TimeState) (target : string) (targetHour : Z) :
  0 <= hour currentTime <= 23 ->
  0 <= minute currentTime <= 59 ->
  In (target, targetHour)
     [("morning", 7); ("noon", 12); ("evening", 18); ("night", 21); ("midnight", 0)] ->
  let diff := targetHour - hour currentTime in
  calculateSkipToMinutes currentTime target
  = (if diff <=? 0 then diff + 24 else diff) * 60 - minute currentTime
  /\ 0 < calculateSkipToMinutes currentTime target
  /\ calculateSkipToMinutes
       (with_clock currentTime (year currentTime) (month currentTime) (day currentTime) 20 0)
       "morning" = 660.
Proof.
  intros Hh Hm Hin diff. subst diff.
  assert (Ht : targetHourOf target = Some targetHour /\ 0 <= targetHour <= 21).
  { simpl in Hin.
    destruct Hin as [H|[H|[H|[H|[H|[]]]]]]; inversion H; subst; clear H;
      (split; [reflexivity | lia]). }
  destruct Ht as [Ht Hth].
  unfold calculateSkipToMinutes. rewrite Ht. cbv zeta.
  split; [reflexivity|]. split; [|reflexivity].
  destruct (targetHour - hour currentTime <=? 0) eqn:Hd;
    [apply Z.leb_le in Hd | apply Z.leb_gt in Hd]; lia.
Qed.

Lemma calculateSkipToMinutes_forward_witness :
  calculateSkipToMinutes createDefaultTimeState "night" = 180 /\
  0 < calculateSkipToMinutes createDefaultTimeState "night".
Proof.
  destruct (calculateSkipToMinutes_forward createDefaultTimeState "night" 21)
    as (Heq & Hpos & _).
  - simpl; lia.
  - simpl; lia.
  - simpl; auto.
  - split; [exact Heq | exact Hpos].
Defined.

(** ** Moons *)

(** C10. With the stored hour and minute in range, on amounts and stored
    values the code's numbers hold exactly, a call that reaches midnight
    advances each moon's [dayInCycle] by exactly one modulo its cycle
    length, however many days it covers, and a call that does not reach
    midnight leaves both moons as they were. *)
Theorem advanceTime_moons_once_per_call (minutes : Z) (silent : bool) (st : Store) :
  exactCall minutes (current st) ->
  0 <= hour (current st) <= 23 ->
  0 <= minute (current st) <= 59 ->
  exists c,
    advanceTime minutes silent st = Returned c /\
    (1440 <= 60 * hour (current st) + minute (current st) + minutes ->
     moons (current (store c))
     = {| lunara := advanceLunara (lunara (moons (current st)));
          veil := advanceVeil (veil (moons (current st))) |}
     /\ dayInCycle (lunara (moons (current (store c))))
        = Z.rem (dayInCycle (lunara (moons (current st))) + 1) LUNARA_CYCLE
     /\ dayInCycle (veil (moons (current (store c))))
        = Z.rem (dayInCycle (veil (moons (current st))) + 1) VEIL_CYCLE) /\
    (60 * hour (current st) + minute (current st) + minutes < 1440 ->
     moons (current (store c)) = moons (current st)).
Proof.
  intros _ Hh Hm. unfold advanceTime.
  destruct (minutes <=? 0) eqn:Hle.
  - apply Z.leb_le in Hle. eexists. split; [reflexivity|]. cbn [store]. split.
    + intros Hcross. lia.
    + intros _. reflexivity.
  - apply Z.leb_gt in Hle. fold (current st).
    set (s0 := current st) in *.
    set (s1 := with_clock s0 (year s0) (month s0) (day s0) (hour s0) (minute s0 + minutes)).
    assert (Hm1 : 0 <= minute s1) by (simpl; lia).
    pose proof (minuteOverflow_keeps s1 Hm1) as Hk. cbv zeta in Hk.
    pose proof (minuteOverflow_exit s1) as Hx.
    set (s2 := minuteOverflow s1) in *.
    destruct Hk as (Hmo2 & Hsum & Hpos). simpl in Hmo2, Hsum.
    pose proof (hourOverflow_keeps s2) as Hk3.
    destruct (hourOverflow s2) as [s3 dayAdvanced].
    destruct Hk3 as (Hmo3 & Hday).
    pose proof (dayOverflow_keeps s3) as Hmo4.
    destruct (dayOverflow s3) as [[s4 monthAdvanced] yearAdvanced]. simpl in Hmo4.
    assert (Hmoons : moons s4 = moons s0) by congruence.
    destruct dayAdvanced.
    + unfold updateMoonPhases.
      eexists. split; [reflexivity|]. cbn [store current getDomainState setDomainState].
      cbn [updateDerivedValues moons]. rewrite Hmoons. split.
      * intros _. repeat split; reflexivity.
      * intros Hstay. assert (24 <= hour s2) by (apply Hday; reflexivity). lia.
    + eexists. split; [reflexivity|]. cbn [store current getDomainState setDomainState].
      cbn [updateDerivedValues moons]. split.
      * intros Hcross. assert (Hd : false = true) by (apply Hday; lia). discriminate.
      * intros _. exact Hmoons.
Qed.

Lemma advanceTime_moons_once_per_call_witness :
  exists c,
    advanceTime 14400 false (Some createDefaultTimeState) = Returned c /\
    dayInCycle (lunara (moons (current (store c)))) = 12 /\
    dayInCycle (veil (moons (current (store c)))) = 1.
Proof.
  destruct (advanceTime_moons_once_per_call 14400 false (Some createDefaultTimeState))
    as (c & Hc & Hcross & _).
  - repeat split; vm_compute; discriminate.
  - simpl; lia.
  - simpl; lia.
  - exists c. split; [exact Hc|].
    destruct Hcross as (_ & Hl & Hv); [simpl; lia|].
    split; [exact Hl | exact Hv].
Defined.

Lemma lunaraAfter_day (n : nat) (l : MoonState) :
  0 <= dayInCycle l < 28 ->
  dayInCycle (lunaraAfter n l) = (dayInCycle l + Z.of_nat n) mod 28.
Proof.
  intros Hd. induction n as [|n IH].
  - simpl. rewrite Z.add_0_r, Z.mod_small; lia.
  - cbn [lunaraAfter advanceLunara dayInCycle]. rewrite IH. unfold LUNARA_CYCLE.
    rewrite Z.rem_mod_nonneg by (pose proof (Z.mod_pos_bound (dayInCycle l + Z.of_nat n) 28); lia).
    rewrite Zplus_mod_idemp_l. f_equal. lia.
Qed.

(** The phase set by a day's update is the table entry at
    [floor(dayInCycle / (28/8))], and it is defined whenever the day is in the cycle. *)
Lemma advanceLunara_phase (l : MoonState) :
  phase (advanceLunara l)
  = js_index MOON_PHASES (phaseIndex (dayInCycle (advanceLunara l)) LUNARA_CYCLE).
Proof. reflexivity. Qed.

Lemma lunara_day_next (d k : Z) :
  0 <= d < 28 -> 1 <= k <= 28 ->
  (d + k) mod 28 = if d + k <? 28 then d + k else d + k - 28.
Proof.
  intros Hd Hk. destruct (d + k <? 28) eqn:Hlt.
  - apply Z.ltb_lt in Hlt. apply Z.mod_small. lia.
  - apply Z.ltb_ge in Hlt. symmetry. apply (Z.mod_unique _ _ 1); lia.
Qed.

Lemma lunaraDays_NoDup (l : MoonState) :
  0 <= dayInCycle l < 28 -> NoDup (lunaraDays 28 l).
Proof.
  intros Hd. unfold lunaraDays.
  apply NoDup_map_NoDup_ForallPairs; [|apply List.seq_NoDup].
  intros a b Ha Hb Heq.
  apply in_seq in Ha. apply in_seq in Hb.
  rewrite !lunaraAfter_day in Heq by exact Hd.
  rewrite !lunara_day_next in Heq by lia.
  destruct (dayInCycle l + Z.of_nat a <? 28) eqn:Ea;
    destruct (dayInCycle l + Z.of_nat b <? 28) eqn:Eb;
    try apply Z.ltb_lt in Ea; try apply Z.ltb_ge in Ea;
    try apply Z.ltb_lt in Eb; try apply Z.ltb_ge in Eb; lia.
Qed.

Lemma lunara_phase_defined (d : Z) :
  0 <= d < 28 ->
  0 <= phaseIndex d LUNARA_CYCLE < 8 /\
  exists p, js_index MOON_PHASES (phaseIndex d LUNARA_CYCLE) = Some p.
Proof.
  intros Hd. unfold phaseIndex, LUNARA_CYCLE.
  assert (Hi : 0 <= 8 * d / 28 < 8).
  { split; [apply Z.div_pos; lia | apply Z.div_lt_upper_bound; lia]. }
  split; [exact Hi|].
  unfold js_index. destruct (8 * d / 28 <? 0) eqn:Hneg; [apply Z.ltb_lt in Hneg; lia|].
  destruct (nth_error MOON_PHASES (Z.to_nat (8 * d / 28))) eqn:Hnth; [eexists; reflexivity|].
  apply nth_error_None in Hnth. unfold MOON_PHASES in Hnth. cbn [List.length] in Hnth. lia.
Qed.

(** C6 (as the code has it). From a day inside the 28-day cycle, the next 28
    daily updates give 28 distinct [dayInCycle] values and return to the
    starting one; after each update the phase is the table entry at
    [floor(dayInCycle / (28/8))]; and over the days 0..27 that index takes
    the values 0..7 in order, each on one contiguous run, the runs having
    4,3,4,3,4,3,4,3 days. *)
Theorem lunara_cycle_and_phase_runs (l : MoonState) :
  0 <= dayInCycle l < 28 ->
  List.length (lunaraDays 28 l) = 28%nat /\
  NoDup (lunaraDays 28 l) /\
  dayInCycle (lunaraAfter 28 l) = dayInCycle l /\
  (forall n,
      phase (lunaraAfter (S n) l)
      = js_index MOON_PHASES (phaseIndex (dayInCycle (lunaraAfter (S n) l)) LUNARA_CYCLE)
      /\ exists p, phase (lunaraAfter (S n) l) = Some p) /\
  lunaraPhaseIndices
  = repeat 0 4 ++ repeat 1 3 ++ repeat 2 4 ++ repeat 3 3
    ++ repeat 4 4 ++ repeat 5 3 ++ repeat 6 4 ++ repeat 7 3 /\
  map phaseRun [0; 1; 2; 3; 4; 5; 6; 7]
  = [ [0; 1; 2; 3]; [4; 5; 6]; [7; 8; 9; 10]; [11; 12; 13];
      [14; 15; 16; 17]; [18; 19; 20]; [21; 22; 23; 24]; [25; 26; 27] ].
Proof.
  intros Hd.
  split; [unfold lunaraDays; rewrite length_map, length_seq; reflexivity|].
  split; [apply lunaraDays_NoDup; exact Hd|].
  split.
  { rewrite lunaraAfter_day by exact Hd.
    replace (dayInCycle l + Z.of_nat 28) with (dayInCycle l + 1 * 28) by lia.
    rewrite Z.mod_add by lia. apply Z.mod_small. lia. }
  split.
  { intros n. split; [reflexivity|].
    change (phase (lunaraAfter (S n) l))
      with (js_index MOON_PHASES
                     (phaseIndex (dayInCycle (lunaraAfter (S n) l)) LUNARA_CYCLE)).
    apply lunara_phase_defined.
    rewrite lunaraAfter_day by exact Hd. apply Z.mod_pos_bound. lia. }
  split; vm_compute; reflexivity.
Qed.

Lemma lunara_cycle_and_phase_runs_witness :
  NoDup (lunaraDays 28 (lunara (moons createDefaultTimeState))) /\
  dayInCycle (lunaraAfter 28 (lunara (moons createDefaultTimeState))) = 11.
Proof.
  destruct (lunara_cycle_and_phase_runs (lunara (moons createDefaultTimeState)))
    as (_ & Hnodup & Hback & _).
  - simpl; lia.
  - split; [exact Hnodup | exact Hback].
Defined.

(** C6, as stated, fails on the run length: "new" is held on the four days
    0..3 of the cycle and "waxing_crescent" on the three days 4..6, so a run
    is not 28/8 days, neither as the fraction 3.5 nor rounded down to 3. *)
Lemma lunara_phase_run_not_uniform :
  phaseRun 0 = [0; 1; 2; 3] /\ phaseRun 1 = [4; 5; 6] /\
  8 * Z.of_nat (List.length (phaseRun 0)) <> 28 /\
  Z.of_nat (List.length (phaseRun 0)) <> 28 / 8 /\
  List.length (phaseRun 0) <> List.length (phaseRun 1).
Proof.
  split; [vm_compute; reflexivity|]. split; [vm_compute; reflexivity|].
  split; [vm_compute; discriminate|]. split; vm_compute; discriminate.
Qed.

(** The daily update of the time state steps the primary moon by [advanceLunara]. *)
Lemma updateMoonPhases_lunara (s : TimeState) :
  lunara (moons (fst (updateMoonPhases s))) = advanceLunara (lunara (moons s)).
Proof. reflexivity. Qed.

(** ** The duration patterns *)

(** The pattern trees print to the pattern texts of the source, and read
    back from them unambiguously. *)
Lemma DURATION_PATTERNS_faithful :
  map (fun p => regex_source (pattern p)) DURATION_PATTERNS = DURATION_PATTERN_SOURCES /\
  forallb (fun p => wf_top (pattern p)) DURATION_PATTERNS = true.
Proof. split; vm_compute; reflexivity. Qed.

(** ** The scan over the patterns *)

(** ** The duration estimator *)

Lemma DURATION_PATTERNS_ok : forallb pattern_ok DURATION_PATTERNS = true.
Proof. vm_compute. reflexivity. Qed.

Lemma digits_value_nonneg (s : list ascii) (acc : Z) : 0 <= acc -> 0 <= digits_value acc s.
Proof.
  revert acc. induction s as [|c s IH]; intros acc Hacc; cbn [digits_value]; [exact Hacc|].
  destruct (is_digit c) eqn:Hd; [|exact Hacc].
  apply IH. unfold is_digit in Hd. apply andb_prop in Hd. destruct Hd as [Hlo _].
  apply Nat.leb_le in Hlo. lia.
Qed.

Lemma parseInt_nonneg (g : option (list ascii)) (n : Z) : parseInt g = Some n -> 0 <= n.
Proof.
  unfold parseInt. destruct g as [[|c s]|]; try discriminate.
  destruct (is_digit c); [|discriminate]. intros H.
  assert (Hn : digits_value 0 (c :: s) = n) by congruence.
  rewrite <- Hn. apply digits_value_nonneg. lia.
Qed.

Lemma explicit_scanning (result : Estimate) (p : DurationPattern) (mins : Z)
      (skip : option string) (text : string) :
  7 <= priority p -> 0 <= mins -> knownSkip skip ->
  scanning (explicit result p mins skip text, priority p).
Proof.
  intros Hp Hm Hs. unfold scanning, explicit. cbn. right. right.
  split; [reflexivity|]. split; [exact Hp|]. split; [|split; assumption].
  eexists. split; [reflexivity|]. split; [reflexivity | discriminate].
Qed.

Lemma scanning_minutes (acc : Estimate * Z) :
  scanning acc -> 0 <= minutes (fst acc) /\ knownSkip (skipTo (fst acc)).
Proof.
  destruct acc as [r hp]. cbn.
  intros [(_ & _ & _ & Hs & Hm)|[(_ & _ & _ & _ & Hs & Hm)|(_ & _ & _ & Hm & Hs)]].
  - rewrite Hm, Hs. split; [lia | left; reflexivity].
  - rewrite Hm, Hs. split; [lia | left; reflexivity].
  - split; assumption.
Qed.

Lemma scanPattern_scanning (text : string) (acc : Estimate * Z) (p : DurationPattern) :
  pattern_ok p = true -> scanning acc -> scanning (scanPattern text acc p).
Proof.
  intros Hok Hacc.
  pose proof (scanning_minutes acc Hacc) as (Hmin & Hskip).
  destruct acc as [result hp]. cbn [fst] in Hmin, Hskip. unfold scanPattern.
  destruct (js_match text (pattern p)) as [m|]; [|exact Hacc].
  destruct (priority p <? hp) eqn:Hlow; [exact Hacc|]. apply Z.ltb_ge in Hlow.
  unfold pattern_ok in Hok.
  destruct (ptype p) as [e|e|e|f|t|est].
  - apply Z.leb_le in Hok.
    destruct (parseInt (match_group m e)) as [n|] eqn:Hn; [|exact Hacc].
    apply parseInt_nonneg in Hn. apply explicit_scanning; [lia | lia | exact Hskip].
  - apply Z.leb_le in Hok.
    destruct (parseInt (match_group m e)) as [n|] eqn:Hn; [|exact Hacc].
    apply parseInt_nonneg in Hn. apply explicit_scanning; [lia | lia | exact Hskip].
  - apply Z.leb_le in Hok.
    destruct (parseInt (match_group m e)) as [n|] eqn:Hn; [|exact Hacc].
    apply parseInt_nonneg in Hn. apply explicit_scanning; [lia | lia | exact Hskip].
  - apply andb_prop in Hok. destruct Hok as [Hf Hp].
    apply Z.leb_le in Hf. apply Z.leb_le in Hp.
    apply explicit_scanning; [lia | lia | exact Hskip].
  - apply andb_prop in Hok. destruct Hok as [Ht Hp]. apply Z.leb_le in Hp.
    apply explicit_scanning; [lia | exact Hmin|].
    right. exists t. split; [reflexivity|].
    apply existsb_exists in Ht. destruct Ht as (x & Hx & Heq).
    apply String.eqb_eq in Heq. subst x. exact Hx.
  - apply andb_prop in Hok. destruct Hok as [Hok Hp6]. apply andb_prop in Hok.
    destruct Hok as [Hest Hp1].
    apply Z.ltb_lt in Hest. apply Z.leb_le in Hp1. apply Z.leb_le in Hp6.
    destruct (priority p >=? hp) eqn:Hge; [|exact Hacc].
    assert (Hentry : sceneEntry (mkDetected (regex_source (pattern p)) None (Some est))).
    { split; [reflexivity|]. exists est. split; [reflexivity | exact Hest]. }
    unfold scanning in Hacc |- *.
    destruct Hacc as [(Hc & Hhp & Hdet & Hs & Hm)
                     |[(Hc & Hhp & Hne & Hall & Hs & Hm)|(Hc & Hhp & _)]].
    + right. left. cbn. rewrite Hc, Hdet. cbn.
      split; [reflexivity|]. split; [exact Hhp|]. split; [discriminate|].
      split; [constructor; [exact Hentry | constructor]|]. split; assumption.
    + right. left. cbn. rewrite Hc. cbn.
      split; [reflexivity|]. split; [exact Hhp|].
      split; [intros H; apply app_eq_nil in H; destruct H as [_ H]; discriminate|].
      split; [apply Forall_app; split; [exact Hall | constructor; [exact Hentry|constructor]]|].
      split; assumption.
    + lia.
Qed.

Lemma scan_scanning (text : string) (ps : list DurationPattern) (acc : Estimate * Z) :
  forallb pattern_ok ps = true -> scanning acc ->
  scanning (fold_left (scanPattern text) ps acc).
Proof.
  revert acc. induction ps as [|p ps IH]; intros acc Hok Hacc; simpl; [exact Hacc|].
  simpl in Hok. apply andb_prop in Hok. destruct Hok as [Hp Hps].
  apply IH; [exact Hps|]. apply scanPattern_scanning; assumption.
Qed.

Lemma maximum_ge (rest : list Z) (first : Z) :
  first <= maximum first rest /\ Forall (fun e => e <= maximum first rest) rest /\
  In (maximum first rest) (first :: rest).
Proof.
  unfold maximum. revert first. induction rest as [|x rest IH]; intros first; simpl.
  - split; [lia|]. split; [constructor | left; reflexivity].
  - destruct (IH (Z.max first x)) as (H1 & H2 & H3).
    split; [lia|]. split; [constructor; [lia | exact H2]|].
    destruct H3 as [H3|H3]; [|right; right; exact H3].
    destruct (Z.max_spec first x) as [[_ Hmax]|[_ Hmax]].
    + right. left. rewrite <- Hmax at 1. exact H3.
    + left. rewrite <- Hmax at 1. exact H3.
Qed.

Lemma sceneEstimates_scene (l : list Detected) :
  Forall sceneEntry l ->
  forall e, In e (sceneEstimates l) <-> exists d, In d l /\ d_estimate d = Some e.
Proof.
  intros Hall e. unfold sceneEstimates. rewrite in_flat_map. split.
  - intros (d & Hd & He). exists d. split; [exact Hd|].
    destruct (d_estimate d) as [x|]; [|contradiction].
    destruct (x =? 0); [contradiction|]. destruct He as [He|[]]. subst. reflexivity.
  - intros (d & Hd & He). exists d. split; [exact Hd|]. rewrite He.
    rewrite Forall_forall in Hall. destruct (Hall d Hd) as (_ & x & Hx & Hpos).
    rewrite He in Hx. injection Hx as <-.
    destruct (e =? 0) eqn:E; [apply Z.eqb_eq in E; lia | left; reflexivity].
Qed.

(** C5. "3 hours later" gives 180 minutes at high confidence; "they share a
    long conversation" matches the two scene rules estimating 45 and 15 and
    gives their maximum, 45, at medium confidence; "..." matches nothing and
    gives the default 3 minutes at low confidence. The result at medium
    confidence is the maximum of the matched scene estimates for every text:
    it is one of them and none is larger; so "you fight, then talk" (5 and
    15) gives 15 and "a short fight, then they travel north" (5 and 120)
    gives 120, neither the first estimate nor the sum. *)
Theorem estimateSceneDuration_examples :
  (minutes (estimateSceneDuration "3 hours later") = 180 /\
   confidence (estimateSceneDuration "3 hours later") = "high") /\
  (minutes (estimateSceneDuration "they share a long conversation") = 45 /\
   confidence (estimateSceneDuration "they share a long conversation") = "medium" /\
   sceneEstimates (detectedTypes (estimateSceneDuration "they share a long conversation"))
   = [45; 15] /\
   minutes (estimateSceneDuration "they share a long conversation") = Z.max 45 15 /\
   minutes (estimateSceneDuration "they share a long conversation") <> 45 + 15) /\
  (minutes (estimateSceneDuration "...") = 3 /\
   confidence (estimateSceneDuration "...") = "low" /\
   detectedTypes (estimateSceneDuration "...") = []) /\
  (forall text,
      confidence (estimateSceneDuration text) = "medium" ->
      sceneEstimates (detectedTypes (estimateSceneDuration text)) <> [] /\
      In (minutes (estimateSceneDuration text))
         (sceneEstimates (detectedTypes (estimateSceneDuration text))) /\
      (forall e, In e (sceneEstimates (detectedTypes (estimateSceneDuration text))) ->
                 e <= minutes (estimateSceneDuration text))) /\
  (sceneEstimates (detectedTypes (estimateSceneDuration "you fight, then talk")) = [5; 15] /\
   minutes (estimateSceneDuration "you fight, then talk") = 15 /\
   confidence (estimateSceneDuration "you fight, then talk") = "medium") /\
  (sceneEstimates
     (detectedTypes (estimateSceneDuration "a short fight, then they travel north"))
   = [5; 120] /\
   minutes (estimateSceneDuration "a short fight, then they travel north") = 120 /\
   confidence (estimateSceneDuration "a short fight, then they travel north") = "medium").
Proof.
  split; [split; vm_compute; reflexivity|].
  split; [repeat split; try (vm_compute; reflexivity); vm_compute; discriminate|].
  split; [repeat split; vm_compute; reflexivity|].
  split; [|split; repeat split; vm_compute; reflexivity].
  intros text. unfold estimateSceneDuration.
  destruct (String.eqb text "") eqn:Hempty; [cbn; discriminate|].
  pose proof (scan_scanning text DURATION_PATTERNS
                ({| minutes := 0; confidence := "low"; detectedTypes := []; skipTo := None |}, 0)
                DURATION_PATTERNS_ok) as Hscan.
  destruct (fold_left _ _ _) as [r hp].
  assert (Hinit : scanning
            ({| minutes := 0; confidence := "low"; detectedTypes := []; skipTo := None |}, 0)).
  { left. cbn. auto. }
  specialize (Hscan Hinit). unfold scanning in Hscan.
  destruct r as [m c dts sk]. cbn [minutes confidence detectedTypes skipTo] in Hscan.
  destruct Hscan as [(Hc & _ & Hdet & Hs & Hm)
                    |[(Hc & _ & Hne & Hall & Hs & Hm)|(Hc & _ & Hone & Hm & Hs)]].
  - subst c dts sk m. cbn. discriminate.
  - subst c sk m.
    cbn [minutes confidence detectedTypes skipTo String.eqb Ascii.eqb Bool.eqb negb andb
         no_skip].
    destruct dts as [|d0 l] eqn:Hl; [contradiction|]. rewrite <- Hl in *.
    assert (Hlen : Nat.eqb (List.length dts) 0 = false) by (rewrite Hl; reflexivity).
    rewrite Hlen. cbn [negb andb].
    pose proof (sceneEstimates_scene dts Hall) as Hest.
    destruct (sceneEstimates dts) as [|e rest] eqn:Hse.
    { exfalso. rewrite Forall_forall in Hall.
      assert (Hd0 : In d0 dts) by (rewrite Hl; left; reflexivity).
      destruct (Hall d0 Hd0) as (_ & e0 & He0 & _).
      apply (proj2 (Hest e0)). exists d0. split; [exact Hd0 | exact He0]. }
    pose proof (maximum_ge rest e) as (Hfirst & Hrest & Hin).
    assert (Hpos : 0 < maximum e rest).
    { destruct (proj1 (Hest e) (or_introl eq_refl)) as (d & Hd & Hde).
      rewrite Forall_forall in Hall. destruct (Hall d Hd) as (_ & x & Hx & Hxpos).
      rewrite Hde in Hx. injection Hx as <-. lia. }
    cbn [minutes skipTo confidence detectedTypes].
    destruct (maximum e rest =? 0) eqn:Hz; [apply Z.eqb_eq in Hz; lia|].
    cbn [andb minutes skipTo confidence detectedTypes]. rewrite ?Hse.
    intros _. split; [discriminate|]. split; [exact Hin|].
    intros x Hx. destruct Hx as [<-|Hx]; [exact Hfirst|].
    rewrite Forall_forall in Hrest. apply Hrest. exact Hx.
  - subst c.
    cbn [minutes confidence detectedTypes skipTo String.eqb Ascii.eqb Bool.eqb negb andb].
    rewrite andb_false_r. cbn [minutes confidence detectedTypes skipTo]. discriminate.
Qed.

Lemma scanPattern_confidence (text : string) (acc : Estimate * Z) (p : DurationPattern) :
  In (confidence (fst acc)) CONFIDENCE_LEVELS ->
  In (confidence (fst (scanPattern text acc p))) CONFIDENCE_LEVELS.
Proof.
  intros Hacc. destruct acc as [result highest]. unfold scanPattern.
  destruct (js_match text (pattern p)) as [m|]; [|exact Hacc].
  destruct (priority p <? highest); [exact Hacc|].
  destruct (ptype p) as [e|e|e|f|t|est];
    try (destruct (parseInt (match_group m e)); [simpl; auto | exact Hacc]);
    try (simpl; auto; fail).
  destruct (priority p >=? highest); [|exact Hacc].
  simpl. destruct (String.eqb (confidence result) "high") eqn:Hhigh.
  - apply String.eqb_eq in Hhigh. rewrite Hhigh. auto.
  - auto.
Qed.

Lemma scan_confidence (text : string) (ps : list DurationPattern) (acc : Estimate * Z) :
  In (confidence (fst acc)) CONFIDENCE_LEVELS ->
  In (confidence (fst (fold_left (scanPattern text) ps acc))) CONFIDENCE_LEVELS.
Proof.
  revert acc. induction ps as [|p ps IH]; intros acc Hacc; simpl.
  - exact Hacc.
  - apply IH. apply scanPattern_confidence. exact Hacc.
Qed.

Lemma scan_unmatched (text : string) (ps : list DurationPattern) (acc : Estimate * Z) :
  (forall p, In p ps -> js_match text (pattern p) = None) ->
  fold_left (scanPattern text) ps acc = acc.
Proof.
  revert acc. induction ps as [|p ps IH]; intros acc Hnone; simpl.
  - reflexivity.
  - assert (Hp : scanPattern text acc p = acc).
    { unfold scanPattern. destruct acc as [result highest].
      rewrite (Hnone p (or_introl eq_refl)). reflexivity. }
    rewrite Hp. apply IH. intros q Hq. apply Hnone. right. exact Hq.
Qed.

(** C8 (as the code has it). For a non-empty text the confidence is one of
    low, medium, high, and a text no pattern recognizes gets the default of
    3 minutes at low confidence. *)
Theorem estimateSceneDuration_confidence (text : string) :
  text <> "" ->
  In (confidence (estimateSceneDuration text)) CONFIDENCE_LEVELS /\
  (unrecognized text ->
   minutes (estimateSceneDuration text) = 3 /\
   confidence (estimateSceneDuration text) = "low" /\
   skipTo (estimateSceneDuration text) = None).
Proof.
  intros Hne. unfold estimateSceneDuration.
  destruct (String.eqb text "") eqn:Hempty; [apply String.eqb_eq in Hempty; contradiction|].
  split.
  - pose proof (scan_confidence text DURATION_PATTERNS
                  ({| minutes := 0; confidence := "low"; detectedTypes := [];
                      skipTo := None |}, 0)) as Hc.
    destruct (fold_left _ _ _) as [result highest]. simpl in Hc.
    specialize (Hc (or_introl eq_refl)).
    repeat match goal with
           | |- context [if ?b then _ else _] => destruct b
           | |- context [match ?l with [] => _ | _ :: _ => _ end] => destruct l
           end; simpl; exact Hc.
  - intros Hun. rewrite (scan_unmatched text DURATION_PATTERNS _ Hun).
    simpl. repeat split; reflexivity.
Qed.

Lemma estimateSceneDuration_confidence_witness :
  In (confidence (estimateSceneDuration "well, well")) CONFIDENCE_LEVELS.
Proof.
  apply (estimateSceneDuration_confidence "well, well"). discriminate.
Defined.

(** C8, as stated, fails on the empty string: its confidence is "none",
    outside low, medium, high, and its minutes are 0, not the default 3. *)
Lemma estimateSceneDuration_empty_is_none :
  confidence (estimateSceneDuration "") = "none" /\
  minutes (estimateSceneDuration "") = 0 /\
  ~ In (confidence (estimateSceneDuration "")) CONFIDENCE_LEVELS.
Proof.
  split; [reflexivity|]. split; [reflexivity|].
  simpl. intros [H|[H|[H|[]]]]; discriminate.
Qed.

(** ** Celestial events *)

Lemma checkRule_filter (lunara veil : option MoonState) (date : DateView)
      (rules : list CelestialEvent) :
  flat_map (checkRule lunara veil date) rules
  = map activate (filter (fun r => holds (ev_condition r lunara veil date)) rules).
Proof.
  induction rules as [|r rules IH]; simpl.
  - reflexivity.
  - rewrite IH. unfold checkRule, holds.
    destruct (ev_condition r lunara veil date) as [[|]|e]; reflexivity.
Qed.

(** C9 (as the code has it). Over any rule table, [checkCelestialEvents]
    returns normally. When both moons are present the result lists, in table
    order, exactly the rules whose condition returned true, each with its
    rarity: a rule whose condition throws or returns false is left out and
    the rules after it are still evaluated. When either moon is missing no
    rule is evaluated and the result is empty. *)
Theorem checkCelestialEvents_reports (rules : list CelestialEvent) (timeState : TimeView) :
  let lunara := match v_moons timeState with Some m => v_lunara m | None => None end in
  let veil := match v_moons timeState with Some m => v_veil m | None => None end in
  let date := {| date_month := v_month timeState; date_day := v_day timeState |} in
  exists events,
    checkCelestialEventsIn rules timeState = Returned events /\
    (lunara <> None -> veil <> None ->
     events = map activate (filter (fun r => holds (ev_condition r lunara veil date)) rules)
     /\ (forall r, In r rules -> ev_condition r lunara veil date = Returned true ->
                   In (activate r) events /\ rarity (activate r) = ev_rarity r)
     /\ (forall e, In e events ->
                   exists r, In r rules /\ e = activate r /\
                             ev_condition r lunara veil date = Returned true)) /\
    (lunara = None \/ veil = None -> events = []).
Proof.
  intros lunara veil date. unfold checkCelestialEventsIn.
  fold lunara. fold veil. fold date.
  destruct lunara as [l|] eqn:Hl; destruct veil as [v|] eqn:Hv.
  - eexists. split; [reflexivity|]. split.
    + intros _ _. rewrite checkRule_filter. split; [reflexivity|]. split.
      * intros r Hin Hcond. split; [|reflexivity].
        apply in_map. apply filter_In. split; [exact Hin|]. rewrite Hcond. reflexivity.
      * intros e He. apply in_map_iff in He. destruct He as (r & Hr & Hin).
        apply filter_In in Hin. destruct Hin as [Hin Hholds].
        exists r. split; [exact Hin|]. split; [symmetry; exact Hr|].
        unfold holds in Hholds.
        destruct (ev_condition r (Some l) (Some v) date) as [[|]|e'];
          [reflexivity | discriminate | discriminate].
    + intros [H|H]; discriminate.
  - eexists. split; [reflexivity|]. split; [intros _ H; contradiction | reflexivity].
  - eexists. split; [reflexivity|]. split; [intros H; contradiction | reflexivity].
  - eexists. split; [reflexivity|]. split; [intros H; contradiction | reflexivity].
Qed.

Lemma checkCelestialEvents_reports_witness :
  exists events,
    checkCelestialEventsIn (brokenRule :: CELESTIAL_EVENTS) doubleFullMoon = Returned events /\
    map (fun e => (id e, rarity e)) events
    = [ ("convergence", "very_rare"); ("veils_eclipse", "rare");
        ("silver_tide", "uncommon"); ("starfall", "annual") ].
Proof.
  destruct (checkCelestialEvents_reports (brokenRule :: CELESTIAL_EVENTS) doubleFullMoon)
    as (events & Hret & Hpresent & _).
  exists events. split; [exact Hret|].
  destruct Hpresent as (Heq & _).
  - simpl; discriminate.
  - simpl; discriminate.
  - rewrite Heq. vm_compute. reflexivity.
Defined.

(** C9, as stated, fails for a time state without moons: on 12 Harvest the
    condition of "starfall" is true whatever the moons, also for missing
    ones, yet the result is empty. *)
Lemma starfall_unreported_without_moons :
  checkCelestialEvents moonlessStarfall = Returned [] /\
  exists r, In r CELESTIAL_EVENTS /\ ev_key r = "starfall" /\
            ev_condition r None None
              {| date_month := v_month moonlessStarfall; date_day := v_day moonlessStarfall |}
            = Returned true.
Proof.
  split; [reflexivity|].
  exists (nth 4 CELESTIAL_EVENTS brokenRule).
  split; [simpl; auto 10|]. split; reflexivity.
Qed.

(** ** Festivals *)

Lemma festivalDaysUntil_other_month (timeState : TimeView) (f : Festival) :
  f_month f <> v_month timeState ->
  festivalDaysUntil timeState f = Raised ReferenceError.
Proof.
  intros Hne. unfold festivalDaysUntil.
  assert (Hm : (f_month f =? v_month timeState) = false) by (apply Z.eqb_neq; exact Hne).
  rewrite Hm. destruct (f_month f >? v_month timeState); reflexivity.
Qed.

Lemma upcomingStep_other_month (timeState : TimeView) (daysAhead : Z)
      (upcoming : list Upcoming) (f : Festival) :
  f_month f <> v_month timeState ->
  upcomingStep timeState daysAhead upcoming f = Raised ReferenceError.
Proof.
  intros Hne. unfold upcomingStep.
  rewrite (festivalDaysUntil_other_month timeState f Hne). reflexivity.
Qed.

(** The loop throws as soon as the table holds a festival of another
    month. *)
Lemma upcomingLoop_throws (timeState : TimeView) (daysAhead : Z) (fs : list Festival) :
  (exists f, In f fs /\ f_month f <> v_month timeState) ->
  forall upcoming, upcomingLoop timeState daysAhead fs upcoming = Raised ReferenceError.
Proof.
  induction fs as [|g fs IH]; intros (f & Hin & Hne) upcoming.
  - destruct Hin.
  - cbn [upcomingLoop].
    destruct (Z.eq_dec (f_month g) (v_month timeState)) as [Hsame|Hother].
    + destruct Hin as [->|Hin]; [contradiction|].
      unfold upcomingStep, festivalDaysUntil.
      assert (Hm : (f_month g =? v_month timeState) = true) by (apply Z.eqb_eq; exact Hsame).
      rewrite Hm.
      destruct ((f_day g - v_day timeState >=? 0) && (f_day g - v_day timeState <=? daysAhead));
        apply IH; exists f; split; assumption.
    + rewrite (upcomingStep_other_month timeState daysAhead upcoming g Hother). reflexivity.
Qed.

(** C4 (what the code does instead). [getUpcomingFestivals] returns no list:
    on every date and for every horizon it throws a ReferenceError, as on
    20 Thawbreak, five days after the Thaw Festival, with a horizon of 400
    days. The count of a festival of another month is left to
    [getDaysUntilDate], which calls [require], unbound in an ES module, and
    on every date the table holds a festival of another month. The count of
    a festival of the current month is the plain difference
    [festival.day - currentDay], negative when the day has passed: it is not
    taken to next year. *)
Theorem getUpcomingFestivals_throws (timeState : TimeView) (daysAhead : Z) :
  getUpcomingFestivals timeState daysAhead = Raised ReferenceError /\
  getUpcomingFestivals afterThaw 400 = Raised ReferenceError /\
  (forall targetMonth targetDay nextYear,
      getDaysUntilDate timeState targetMonth targetDay nextYear = Raised ReferenceError) /\
  (forall f, f_month f <> v_month timeState ->
             festivalDaysUntil timeState f = Raised ReferenceError) /\
  (forall f, f_month f = v_month timeState ->
             festivalDaysUntil timeState f = Returned (f_day f - v_day timeState)) /\
  festivalDaysUntil afterThaw thawFestival = Returned (-5).
Proof.
  assert (Hall : forall ts d, getUpcomingFestivals ts d = Raised ReferenceError).
  { intros ts d. unfold getUpcomingFestivals. rewrite upcomingLoop_throws; [reflexivity|].
    destruct (Z.eq_dec (v_month ts) 1) as [Hjan|Hnot].
    - exists (nth 1 FESTIVALS thawFestival). split; [cbn; auto|].
      cbn [nth FESTIVALS f_month]. lia.
    - exists (nth 0 FESTIVALS thawFestival). split; [cbn; auto|].
      cbn [nth FESTIVALS f_month]. lia. }
  split; [apply Hall|]. split; [apply Hall|]. split; [reflexivity|].
  split; [apply festivalDaysUntil_other_month|]. split; [|reflexivity].
  intros f Hsame. unfold festivalDaysUntil.
  assert (Hm : (f_month f =? v_month timeState) = true) by (apply Z.eqb_eq; exact Hsame).
  rewrite Hm. reflexivity.
Qed.

(** A jump over one month boundary keeps the absolute count: 30 days from
    the default state. *)
Lemma advanceTime_one_month_exact :
  exists c s,
    advanceTime 43200 false (Some createDefaultTimeState) = Returned c /\
    value c = Some s /\
    (year s, month s, day s, hour s, minute s) = (2847, 8, 13, 18, 0) /\
    absoluteMinutes s = absoluteMinutes createDefaultTimeState + 43200.
Proof.
  set (r := advanceTime 43200 false (Some createDefaultTimeState)).
  vm_compute in r. subst r.
  eexists. eexists. split; [reflexivity|]. split; [reflexivity|].
  split; [reflexivity|]. vm_compute. reflexivity.
Qed.

(** The default state's moons satisfy the phase relation. *)
Lemma default_moons_consistent :
  phase (lunara (moons createDefaultTimeState))
  = js_index MOON_PHASES
             (phaseIndex (dayInCycle (lunara (moons createDefaultTimeState))) LUNARA_CYCLE) /\
  phase (veil (moons createDefaultTimeState))
  = js_index MOON_PHASES
             (phaseIndex (dayInCycle (veil (moons createDefaultTimeState))) VEIL_CYCLE).
Proof. split; reflexivity. Qed.

(** The text "90 days later" is estimated at the 129600 minutes of the
    drifting jump. *)
Lemma ninety_days_later :
  minutes (estimateSceneDuration "90 days later") = 129600 /\
  confidence (estimateSceneDuration "90 days later") = "high".
Proof. split; vm_compute; reflexivity. Qed.

(** * Further properties of the time engine *)

(** ** Closed forms of the cascade *)



Lemma with_clock_same (s : TimeState) :
  with_clock s (year s) (month s) (day s) (hour s) (minute s) = s.
Proof. destruct s; reflexivity. Qed.

Lemma minuteOverflow_closed (s : TimeState) :
  0 <= minute s ->
  minuteOverflow s
  = with_clock s (year s) (month s) (day s) (hour s + minute s / 60) (minute s mod 60).
Proof.
  intros Hm.
  pose proof (minuteOverflow_exit s) as Hexit.
  assert (Hinv : exists k, 0 <= k /\ 0 <= minute s - 60 * k /\
            minuteOverflow s
            = with_clock s (year s) (month s) (day s) (hour s + k) (minute s - 60 * k)).
  { unfold minuteOverflow.
    apply (@while_invariant TimeState
             (fun t => exists k, 0 <= k /\ 0 <= minute s - 60 * k /\
                t = with_clock s (year s) (month s) (day s) (hour s + k)
                               (minute s - 60 * k))).
    - intros t (k & Hk & Hpos & Ht) Hc. apply Z.geb_le in Hc.
      exists (k + 1). subst t. cbn [minute hour with_clock] in Hc |- *.
      split; [lia|]. split; [lia|]. unfold with_clock; cbn [year month day hour minute
        monthName season dayOfWeek moons celestialEffects]. f_equal; lia.
    - exists 0. split; [lia|]. split; [lia|].
      rewrite Z.add_0_r, Z.mul_0_r, Z.sub_0_r. symmetry. apply with_clock_same. }
  destruct Hinv as (k & Hk & Hpos & Heq). rewrite Heq in Hexit |- *.
  cbn [minute with_clock] in Hexit.
  assert (Hq : minute s / 60 = k) by (symmetry; apply (Z.div_unique _ _ k (minute s - 60 * k)); lia).
  assert (Hr : minute s mod 60 = minute s - 60 * k)
    by (symmetry; apply (Z.mod_unique _ _ k); lia).
  rewrite Hq, Hr. reflexivity.
Qed.

Lemma hourOverflow_closed (s : TimeState) :
  0 <= hour s ->
  hourOverflow s
  = (with_clock s (year s) (month s) (day s + hour s / 24) (hour s mod 24) (minute s),
     24 <=? hour s).
Proof.
  intros Hh.
  pose proof (hourOverflow_exit s) as Hexit.
  assert (Hinv : exists k, 0 <= k /\ 0 <= hour s - 24 * k /\
            fst (hourOverflow s)
            = with_clock s (year s) (month s) (day s + k) (hour s - 24 * k) (minute s) /\
            snd (hourOverflow s) = (0 <? k)).
  { unfold hourOverflow.
    apply (@while_invariant (TimeState * bool)
             (fun p => exists k, 0 <= k /\ 0 <= hour s - 24 * k /\
                fst p = with_clock s (year s) (month s) (day s + k) (hour s - 24 * k)
                                   (minute s) /\
                snd p = (0 <? k))).
    - intros [t b] (k & Hk & Hpos & Ht & Hb) Hc. cbn [fst snd] in Ht, Hb. subst t b.
      assert (Hc' : 24 <= hour s - 24 * k) by (apply Z.geb_le; exact Hc).
      exists (k + 1). split; [lia|]. split; [lia|]. cbn [fst snd]. split.
      + unfold with_clock; cbn [year month day hour minute
          monthName season dayOfWeek moons celestialEffects]. f_equal; lia.
      + symmetry. apply Z.ltb_lt. lia.
    - exists 0. split; [lia|]. split; [lia|]. cbn [fst snd].
      rewrite Z.add_0_r, Z.mul_0_r, Z.sub_0_r, with_clock_same. split; reflexivity. }
  destruct Hinv as (k & Hk & Hpos & Heq & Hflag).
  destruct (hourOverflow s) as [t b]. cbn [fst snd] in *. subst t b.
  cbn [hour with_clock] in Hexit.
  assert (Hq : hour s / 24 = k) by (symmetry; apply (Z.div_unique _ _ k (hour s - 24 * k)); lia).
  assert (Hr : hour s mod 24 = hour s - 24 * k)
    by (symmetry; apply (Z.mod_unique _ _ k); lia).
  rewrite Hq, Hr. f_equal.
  destruct (0 <? k) eqn:E1; destruct (24 <=? hour s) eqn:E2; try reflexivity;
    try apply Z.ltb_lt in E1; try apply Z.ltb_ge in E1;
    try apply Z.leb_le in E2; try apply Z.leb_gt in E2; lia.
Qed.

Lemma dayOverflow_clock (s : TimeState) :
  let '(t, monthAdvanced, yearAdvanced) := dayOverflow s in
  hour t = hour s /\ minute t = minute s /\ day t <= day s /\
  (monthAdvanced = false -> t = s) /\
  (yearAdvanced = true -> monthAdvanced = true) /\
  (monthAdvanced = true -> getMonthLength (month s) (year s) < day s) /\
  (1 <= month s <= 12 -> 1 <= month t <= 12) /\
  (1 <= day s -> 1 <= day t).
Proof.
  unfold dayOverflow.
  set (L := getMonthLength (month s) (year s)).
  assert (HL : 28 <= L <= 31) by apply getMonthLength_bounds.
  apply (@while_invariant (TimeState * bool * bool)
           (fun p => let '(t, monthAdvanced, yearAdvanced) := p in
                     hour t = hour s /\ minute t = minute s /\ day t <= day s /\
                     (monthAdvanced = false -> t = s) /\
                     (yearAdvanced = true -> monthAdvanced = true) /\
                     (monthAdvanced = true -> L < day s) /\
                     (1 <= month s <= 12 -> 1 <= month t <= 12) /\
                     (1 <= day s -> 1 <= day t))).
  - intros [[t b1] b2] (Hh & Hm & Hday & Hsame & Hym & Hlt & Hmo & Hd) Hc.
    assert (Hc' : L < day t) by (apply Z.gtb_lt; exact Hc).
    destruct (month t + 1 >? 12) eqn:Hwrap;
      cbn [with_clock year month day hour minute];
      (split; [exact Hh|]; split; [exact Hm|]; split; [lia|]; split; [discriminate|];
       split; [reflexivity|]; split; [intros _; lia|]; split; [|lia]).
    + lia.
    + intros H. specialize (Hmo H). rewrite Z.gtb_ltb in Hwrap. apply Z.ltb_ge in Hwrap. lia.
  - repeat split; try reflexivity; try discriminate; auto; lia.
Qed.

Lemma phaseChange_only (moon : string) (old new : option string) (e : Event) :
  In e (phaseChange moon old new) -> exists m o n, e = moonPhaseChanged m o n.
Proof.
  unfold phaseChange. destruct old as [o|]; [|intros []].
  destruct (negb (String.eqb o "") && negb (phase_is new o)); [|intros []].
  intros [H|[]]. subst e. eauto.
Qed.

Lemma updateMoonPhases_events (s : TimeState) (e : Event) :
  In e (snd (updateMoonPhases s)) -> exists m o n, e = moonPhaseChanged m o n.
Proof.
  unfold updateMoonPhases. cbn [snd]. intros H. apply in_app_or in H.
  destruct H as [H|H]; eapply phaseChange_only; exact H.
Qed.

Lemma updateMoonPhases_clock (s : TimeState) :
  let t := fst (updateMoonPhases s) in
  year t = year s /\ month t = month s /\ day t = day s /\
  hour t = hour s /\ minute t = minute s.
Proof. unfold updateMoonPhases. cbn. repeat split. Qed.

(** The shape of a call with a positive amount on a state whose hour and
    minute are not negative: the cascade in closed form up to the month loop,
    and the events in the order they are sent. *)
Lemma advanceTime_shape (minutes : Z) (silent : bool) (st : Store) :
  0 < minutes -> 0 <= hour (current st) -> 0 <= minute (current st) ->
  let s0 := current st in
  let hours := hour s0 + (minute s0 + minutes) / 60 in
  exists (s4 s' : TimeState) (monthAdvanced yearAdvanced : bool) (moonEvents : list Event),
    dayOverflow (carried s0 minutes) = (s4, monthAdvanced, yearAdvanced) /\
    advanceTime minutes silent st
    = Returned (mkCall (Some s') (Some s')
                  (moonEvents
                   ++ (if silent then []
                       else [timeAdvanced (sharedMoons s0 s') s' minutes]
                            ++ (if 24 <=? hours then [newDay s'] else [])
                            ++ (if monthAdvanced then [newMonth s'] else [])
                            ++ (if yearAdvanced then [newYear s'] else [])))) /\
    (year s', month s', day s', hour s', minute s')
    = (year s4, month s4, day s4, hour s4, minute s4) /\
    (forall e, In e moonEvents -> exists m o n, e = moonPhaseChanged m o n).
Proof.
  intros Hpos Hh Hm s0 hours. unfold advanceTime.
  change (current st) with s0 in Hh, Hm.
  destruct (minutes <=? 0) eqn:Hle; [apply Z.leb_le in Hle; lia|]. clear Hle.
  fold (current st). fold s0.
  set (s1 := with_clock s0 (year s0) (month s0) (day s0) (hour s0) (minute s0 + minutes)).
  assert (Hm1 : 0 <= minute s1) by (unfold s1; cbn [minute with_clock]; lia).
  rewrite (minuteOverflow_closed s1 Hm1).
  cbn [s1 with_clock year month day hour minute].
  set (s2 := with_clock s1 (year s0) (month s0) (day s0) (hour s0 + (minute s0 + minutes) / 60)
                        ((minute s0 + minutes) mod 60)).
  assert (Hh2 : 0 <= hour s2).
  { unfold s2. cbn [hour with_clock].
    assert (0 <= (minute s0 + minutes) / 60) by (apply Z.div_pos; lia). lia. }
  rewrite (hourOverflow_closed s2 Hh2).
  cbn [s2 with_clock year month day hour minute].
  fold hours.
  change (with_clock s2 (year s0) (month s0) (day s0 + hours / 24) (hours mod 24)
                     ((minute s0 + minutes) mod 60))
    with (carried s0 minutes).
  destruct (dayOverflow (carried s0 minutes)) as [[s4 monthAdvanced] yearAdvanced].
  destruct (24 <=? hours) eqn:Hcross.
  - pose proof (updateMoonPhases_clock (updateDerivedValues s4)) as Hclock.
    pose proof (updateMoonPhases_events (updateDerivedValues s4)) as Hev.
    destruct (updateMoonPhases (updateDerivedValues s4)) as [s5 moonEvents].
    cbn [fst snd updateDerivedValues year month day hour minute] in Hclock, Hev.
    destruct Hclock as (Hy & Hmon & Hdy & Hhr & Hmi).
    exists s4, s5, monthAdvanced, yearAdvanced, moonEvents.
    split; [reflexivity|]. split; [reflexivity|].
    split; [rewrite Hy, Hmon, Hdy, Hhr, Hmi; reflexivity | exact Hev].
  - exists s4, (updateDerivedValues s4), monthAdvanced, yearAdvanced, [].
    split; [reflexivity|]. split; [reflexivity|].
    split; [reflexivity | intros e []].
Qed.

(** ** Day counts *)

Lemma sum_from_snoc (f : Z -> Z) (n : nat) (lo : Z) :
  sum_from f lo (S n) = sum_from f lo n + f (lo + Z.of_nat n).
Proof.
  revert lo. induction n as [|n IH]; intros lo.
  - simpl. replace (lo + 0) with lo by lia. lia.
  - change (sum_from f lo (S (S n))) with (f lo + sum_from f (lo + 1) (S n)).
    rewrite IH. change (sum_from f lo (S n)) with (f lo + sum_from f (lo + 1) n).
    replace (lo + 1 + Z.of_nat n) with (lo + Z.of_nat (S n)) by lia. lia.
Qed.

Lemma sum_range_snoc (f : Z -> Z) (lo hi : Z) :
  lo <= hi -> sum_range f lo (hi + 1) = sum_range f lo hi + f hi.
Proof.
  intros Hle. unfold sum_range.
  replace (Z.to_nat (hi + 1 - lo)) with (S (Z.to_nat (hi - lo))) by lia.
  rewrite sum_from_snoc, Z2Nat.id by lia.
  replace (lo + (hi - lo)) with hi by lia. reflexivity.
Qed.



Lemma getYearLength_split (y : Z) :
  getYearLength y = sum_range (fun m => getMonthLength m y) 1 12 + getMonthLength 12 y.
Proof.
  unfold getYearLength. change 13 with (12 + 1). rewrite sum_range_snoc by lia. reflexivity.
Qed.





(** ** The clock after [advanceTime] *)

(** The hour and minute after a call of the embedded [advanceTime], in
    closed form. *)
Lemma advanceTime_clock_mod (minutes : Z) (silent : bool) (st : Store) :
  0 < minutes ->
  0 <= hour (current st) <= 23 ->
  0 <= minute (current st) <= 59 ->
  exists c s',
    advanceTime minutes silent st = Returned c /\
    value c = Some s' /\ store c = Some s' /\
    0 <= hour s' <= 23 /\ 0 <= minute s' <= 59 /\
    60 * hour s' + minute s'
    = (60 * hour (current st) + minute (current st) + minutes) mod 1440.
Proof.
  intros Hpos Hh Hm.
  destruct (advanceTime_shape minutes silent st Hpos (proj1 Hh) (proj1 Hm))
    as (s4 & s' & mA & yA & ev & Hday & Hcall & Hclock & _).
  pose proof (dayOverflow_clock (carried (current st) minutes)) as Hk.
  rewrite Hday in Hk. destruct Hk as (H4h & H4m & _).
  cbn [carried with_clock hour minute] in H4h, H4m.
  injection Hclock as _ _ _ Hhr Hmi.
  eexists. exists s'. split; [exact Hcall|]. split; [reflexivity|]. split; [reflexivity|].
  set (s0 := current st) in *.
  set (total := minute s0 + minutes) in *.
  assert (Ht : 0 <= total) by (unfold total; lia).
  pose proof (Z.mod_pos_bound (hour s0 + total / 60) 24 ltac:(lia)).
  pose proof (Z.mod_pos_bound total 60 ltac:(lia)).
  split; [lia|]. split; [lia|].
  rewrite Hhr, Hmi, H4h, H4m.
  replace (60 * hour s0 + minute s0 + minutes) with (total + hour s0 * 60)
    by (unfold total; lia).
  change 1440 with (60 * 24). rewrite Z.rem_mul_r by lia.
  rewrite Z.mod_add, Z.div_add by lia.
  replace (total / 60 + hour s0) with (hour s0 + total / 60) by lia. lia.
Qed.

(** X1. The time of day advances modulo 1440: on an amount and stored
    values the code's numbers hold exactly (the minute sum the loop starts
    from is below 2^53), from an hour in [0,23] and a minute in [0,59], a
    positive amount leaves
    [60 * hour + minute = (60 * hour0 + minute0 + minutes) mod 1440], with
    the hour and minute back in range, whatever the date does. *)
Theorem advanceTime_time_of_day (minutes : Z) (silent : bool) (st : Store) :
  exactCall minutes (current st) ->
  0 < minutes ->
  0 <= hour (current st) <= 23 ->
  0 <= minute (current st) <= 59 ->
  minute (current st) + minutes <= MAX_SAFE_INTEGER /\
  exists c s',
    advanceTime minutes silent st = Returned c /\
    value c = Some s' /\ store c = Some s' /\
    0 <= hour s' <= 23 /\ 0 <= minute s' <= 59 /\
    60 * hour s' + minute s'
    = (60 * hour (current st) + minute (current st) + minutes) mod 1440.
Proof.
  intros Hexact Hpos Hh Hm. split.
  - destruct Hexact as (Hamount & _).
    assert (H52 : 2 ^ 52 + 59 <= MAX_SAFE_INTEGER) by (vm_compute; discriminate).
    lia.
  - exact (advanceTime_clock_mod minutes silent st Hpos Hh Hm).
Qed.

Lemma advanceTime_time_of_day_witness :
  exists c s',
    advanceTime 400 false (Some createDefaultTimeState) = Returned c /\
    value c = Some s' /\ 60 * hour s' + minute s' = 40.
Proof.
  destruct (advanceTime_time_of_day 400 false (Some createDefaultTimeState))
    as (_ & c & s' & Hc & Hv & _ & _ & _ & Heq).
  - repeat split; vm_compute; discriminate.
  - lia.
  - cbn; lia.
  - cbn; lia.
  - exists c, s'. split; [exact Hc|]. split; [exact Hv|]. exact Heq.
Defined.





(** ** Setting the time *)



(** ** The calendar *)

Lemma getYearLength_cases (y : Z) :
  getYearLength y = (if Z.rem y 4 =? 0 then 362 else 361).
Proof.
  rewrite getYearLength_split, getMonthLength_leap.
  change (sum_range (fun m => getMonthLength m y) 1 12) with 332.
  destruct (Z.rem y 4 =? 0); reflexivity.
Qed.

(** X5. Only the twelfth month depends on the year: every other month has
    the same length in all years, and a year has 362 days when it is a
    multiple of four and 361 otherwise. *)
Theorem getYearLength_value (y : Z) :
  getYearLength y = (if Z.rem y 4 =? 0 then 362 else 361) /\
  (forall mo y', mo <> 12 -> getMonthLength mo y = getMonthLength mo y').
Proof.
  split.
  - apply getYearLength_cases.
  - intros mo y' Hmo. unfold getMonthLength.
    destruct (js_index MONTHS (mo - 1)); [|reflexivity].
    assert (Hne : (mo =? 12) = false) by (apply Z.eqb_neq; exact Hmo).
    rewrite Hne. reflexivity.
Qed.






(** ** Moon countdowns *)

Ltac moon_day_cases d H :=
  let k := fresh "k" in
  let Hk := fresh "Hk" in
  assert (Hk : exists k : nat, d = Z.of_nat k) by (exists (Z.to_nat d); lia);
  destruct Hk as (k & Hk); rewrite Hk in H.

Ltac moon_facts :=
  cbn [dayInCycle phase visible daysUntilFull daysUntilNew];
  repeat split; intros; try lia; try reflexivity; try congruence.

(** X7. The primary moon's countdowns are true to its cycle. After a daily
    update from a day inside the 28-day cycle, the day is inside the cycle,
    [daysUntilFull] days later the moon is on day 14 where its phase is
    "full", and [daysUntilNew] is between 1 and 28 and leads to day 0 (it is
    28, not 0, on the new-moon day itself). *)
Theorem advanceLunara_countdowns (l : MoonState) :
  0 <= dayInCycle l < 28 ->
  let l' := advanceLunara l in
  0 <= dayInCycle l' < 28 /\
  0 <= daysUntilFull l' < 28 /\
  (dayInCycle l' + daysUntilFull l') mod 28 = 14 /\
  1 <= daysUntilNew l' <= 28 /\
  (dayInCycle l' + daysUntilNew l') mod 28 = 0 /\
  (daysUntilFull l' = 0 -> phase l' = Some "full") /\
  (dayInCycle l' = 0 -> phase l' = Some "new" /\ daysUntilNew l' = 28).
Proof.
  intros Hd. destruct l as [ph d vis f n eff prev]. cbn [dayInCycle] in Hd.
  moon_day_cases d Hd. subst d.
  do 28 (destruct k as [|k];
         [ set (l' := advanceLunara _); vm_compute in l'; subst l'; cbv zeta; moon_facts |]).
  lia.
Qed.

Lemma advanceLunara_countdowns_witness :
  let l' := advanceLunara (lunara (moons createDefaultTimeState)) in
  (dayInCycle l' + daysUntilFull l') mod 28 = 14 /\
  (dayInCycle l' + daysUntilNew l') mod 28 = 0.
Proof.
  destruct (advanceLunara_countdowns (lunara (moons createDefaultTimeState)))
    as (_ & _ & Hfull & _ & Hnew & _).
  - cbn; lia.
  - split; [exact Hfull | exact Hnew].
Defined.

(** X8. The secondary moon. After a daily update from a day inside the
    35-day cycle, the day is inside the cycle; the moon is hidden exactly on
    days 0..4 and visible on all others; its phase is "full" exactly on days
    18..21; and [daysUntilFull] counts to day 17, where the phase is still
    "waxing_gibbous". *)
Theorem advanceVeil_cycle (v : MoonState) :
  0 <= dayInCycle v < 35 ->
  let v' := advanceVeil v in
  0 <= dayInCycle v' < 35 /\
  (visible v' = Some false <-> dayInCycle v' <= 4) /\
  (visible v' = Some true <-> 5 <= dayInCycle v') /\
  (phase v' = Some "full" <-> 18 <= dayInCycle v' <= 21) /\
  0 <= daysUntilFull v' < 35 /\
  (dayInCycle v' + daysUntilFull v') mod 35 = 17 /\
  (daysUntilFull v' = 0 -> phase v' = Some "waxing_gibbous") /\
  1 <= daysUntilNew v' <= 35 /\
  (dayInCycle v' + daysUntilNew v') mod 35 = 0.
Proof.
  intros Hd. destruct v as [ph d vis f n eff prev]. cbn [dayInCycle] in Hd.
  moon_day_cases d Hd. subst d.
  do 35 (destruct k as [|k];
         [ set (v' := advanceVeil _); vm_compute in v'; subst v'; cbv zeta; moon_facts |]).
  lia.
Qed.

Lemma advanceVeil_cycle_witness :
  let v' := advanceVeil (veil (moons createDefaultTimeState)) in
  (visible v' = Some false <-> dayInCycle v' <= 4) /\
  (dayInCycle v' + daysUntilFull v') mod 35 = 17.
Proof.
  destruct (advanceVeil_cycle (veil (moons createDefaultTimeState)))
    as (_ & Hhidden & _ & _ & _ & Hfull & _).
  - cbn; lia.
  - split; [exact Hhidden | exact Hfull].
Defined.

(** X9. What an estimate looks like, by confidence. An empty text gives
    0 minutes at "none". Otherwise the result is one of: "low" with the
    default 3 minutes and nothing detected; "medium" with only scene entries
    detected, no skip target, and the minutes equal to the largest of their
    (positive) estimates; "high" with a single explicit entry, minutes that
    are not negative, and a skip target, if any, that
    [calculateSkipToMinutes] knows. *)
Theorem estimateSceneDuration_by_confidence (text : string) :
  let r := estimateSceneDuration text in
  (text = "" /\ confidence r = "none" /\ minutes r = 0 /\ detectedTypes r = [])
  \/ (confidence r = "low" /\ minutes r = 3 /\ detectedTypes r = [] /\ skipTo r = None)
  \/ (confidence r = "medium" /\ skipTo r = None /\
      detectedTypes r <> [] /\ Forall sceneEntry (detectedTypes r) /\
      (forall d e, In d (detectedTypes r) -> d_estimate d = Some e -> e <= minutes r) /\
      (exists d, In d (detectedTypes r) /\ d_estimate d = Some (minutes r)) /\
      0 < minutes r)
  \/ (confidence r = "high" /\ 0 <= minutes r /\
      (exists d, detectedTypes r = [d] /\ explicitEntry d) /\
      knownSkip (skipTo r)).
Proof.
  intros r. subst r. unfold estimateSceneDuration.
  destruct (String.eqb text "") eqn:Hempty.
  { left. apply String.eqb_eq in Hempty. cbn. auto. }
  right.
  pose proof (scan_scanning text DURATION_PATTERNS
                ({| minutes := 0; confidence := "low"; detectedTypes := []; skipTo := None |}, 0)
                DURATION_PATTERNS_ok) as Hscan.
  destruct (fold_left _ _ _) as [r hp].
  assert (Hinit : scanning
            ({| minutes := 0; confidence := "low"; detectedTypes := []; skipTo := None |}, 0)).
  { left. cbn. auto. }
  specialize (Hscan Hinit). unfold scanning in Hscan.
  destruct r as [m c dts sk]. cbn [minutes confidence detectedTypes skipTo] in Hscan.
  destruct Hscan as [(Hc & _ & Hdet & Hs & Hm)
                    |[(Hc & _ & Hne & Hall & Hs & Hm)|(Hc & _ & Hone & Hm & Hs)]].
  - left. subst c dts sk m. cbn. auto.
  - right. left. subst c sk m.
    cbn [minutes confidence detectedTypes skipTo String.eqb Ascii.eqb Bool.eqb negb andb
         no_skip].
    destruct dts as [|d0 l] eqn:Hl; [contradiction|]. rewrite <- Hl in *.
    assert (Hlen : Nat.eqb (List.length dts) 0 = false) by (rewrite Hl; reflexivity).
    rewrite Hlen. cbn [negb andb].
    pose proof (sceneEstimates_scene dts Hall) as Hest.
    destruct (sceneEstimates dts) as [|e rest] eqn:Hse.
    { exfalso. rewrite Forall_forall in Hall.
      assert (Hd0 : In d0 dts) by (rewrite Hl; left; reflexivity).
      destruct (Hall d0 Hd0) as (_ & e0 & He0 & _).
      apply (proj2 (Hest e0)). exists d0. split; [exact Hd0 | exact He0]. }
    pose proof (maximum_ge rest e) as (Hfirst & Hrest & Hin).
    assert (Hpos : 0 < maximum e rest).
    { destruct (proj1 (Hest e) (or_introl eq_refl)) as (d & Hd & Hde).
      rewrite Forall_forall in Hall. destruct (Hall d Hd) as (_ & x & Hx & Hxpos).
      rewrite Hde in Hx. injection Hx as <-. lia. }
    cbn [minutes skipTo confidence detectedTypes].
    destruct (maximum e rest =? 0) eqn:Hz; [apply Z.eqb_eq in Hz; lia|].
    cbn [andb minutes skipTo confidence detectedTypes].
    split; [reflexivity|]. split; [reflexivity|]. split; [exact Hne|].
    split; [exact Hall|]. split; [|split; [|exact Hpos]].
    + intros d x Hd Hx.
      assert (Hinx : In x (e :: rest)) by (apply Hest; exists d; split; assumption).
      destruct Hinx as [<-|Hinx]; [exact Hfirst|].
      rewrite Forall_forall in Hrest. apply Hrest. exact Hinx.
    + apply Hest in Hin. exact Hin.
  - right. right. subst c.
    cbn [minutes confidence detectedTypes skipTo String.eqb Ascii.eqb Bool.eqb negb andb].
    rewrite andb_false_r. cbn [minutes confidence detectedTypes skipTo]. auto.
Qed.

(** * Further properties of the celestial tracker *)

(** ** Celestial events *)

Lemma reported_iff (rules : list CelestialEvent) (l v : option MoonState) (date : DateView)
      (key : string) :
  In key (map id (flat_map (checkRule l v date) rules)) <->
  exists r, In r rules /\ ev_key r = key /\ ev_condition r l v date = Returned true.
Proof.
  rewrite checkRule_filter, map_map. cbn [id activate]. rewrite in_map_iff. split.
  - intros (r & Hkey & Hin). apply filter_In in Hin. destruct Hin as [Hin Hholds].
    exists r. split; [exact Hin|]. split; [exact Hkey|].
    unfold holds in Hholds.
    destruct (ev_condition r l v date) as [[|]|e]; [reflexivity | discriminate | discriminate].
  - intros (r & Hin & Hkey & Hcond). exists r. split; [exact Hkey|].
    apply filter_In. split; [exact Hin|]. rewrite Hcond. reflexivity.
Qed.

Lemma and_also_true (a b : bool) :
  and_also (Returned a) (Returned b) = Returned true <-> a = true /\ b = true.
Proof. destruct a, b; cbn; split; intros H; try discriminate; try tauto; destruct H; discriminate. Qed.

Lemma phase_is_iff (p : option string) (lit : string) : phase_is p lit = true <-> p = Some lit.
Proof.
  destruct p as [x|]; cbn [phase_is].
  - rewrite String.eqb_eq. split; congruence.
  - split; discriminate.
Qed.

Ltac pick_rule H :=
  let r := fresh "r" in
  let Hin := fresh "Hin" in
  let Hkey := fresh "Hkey" in
  let Hcond := fresh "Hcond" in
  destruct H as (r & Hin & Hkey & Hcond);
  unfold CELESTIAL_EVENTS in Hin; cbn [In] in Hin;
  repeat (destruct Hin as [Hin|Hin]; [subst r; cbn [ev_key] in Hkey; try discriminate Hkey|]);
  try contradiction;
  cbn [ev_condition reading] in Hcond.

Lemma checkCelestialEvents_ids_aux (y mo d : Z) (l v : MoonState) :
  let ids := reportedIds (checkCelestialEvents (withMoons y mo d l v)) in
  (In "convergence" ids <-> phase l = Some "full" /\ phase v = Some "full") /\
  (In "veils_eclipse" ids <-> phase l = Some "full" /\ dayInCycle v = 17) /\
  (In "void_night" ids <-> phase l = Some "new" /\ phase v = Some "new") /\
  (In "silver_tide" ids <-> phase l = Some "full" /\ Z.rem (dayInCycle l) 7 = 0) /\
  (In "starfall" ids <-> mo = 8 /\ 10 <= d <= 15).
Proof.
  cbv zeta. unfold checkCelestialEvents, checkCelestialEventsIn, withMoons.
  cbn [v_moons v_lunara v_veil v_month v_day reportedIds].
  rewrite !reported_iff.
  split; [|split; [|split; [|split]]]; split.
  - intros H. pick_rule H. apply and_also_true in Hcond.
    rewrite !phase_is_iff in Hcond. exact Hcond.
  - intros H. exists (nth 0 CELESTIAL_EVENTS brokenRule).
    split; [cbn; auto|]. split; [reflexivity|]. cbn [nth CELESTIAL_EVENTS ev_condition reading].
    apply and_also_true. rewrite !phase_is_iff. exact H.
  - intros H. pick_rule H. apply and_also_true in Hcond.
    rewrite phase_is_iff, Z.eqb_eq in Hcond. exact Hcond.
  - intros H. exists (nth 1 CELESTIAL_EVENTS brokenRule).
    split; [cbn; auto|]. split; [reflexivity|]. cbn [nth CELESTIAL_EVENTS ev_condition reading].
    apply and_also_true. rewrite phase_is_iff, Z.eqb_eq. exact H.
  - intros H. pick_rule H. apply and_also_true in Hcond.
    rewrite !phase_is_iff in Hcond. exact Hcond.
  - intros H. exists (nth 2 CELESTIAL_EVENTS brokenRule).
    split; [cbn; auto|]. split; [reflexivity|]. cbn [nth CELESTIAL_EVENTS ev_condition reading].
    apply and_also_true. rewrite !phase_is_iff. exact H.
  - intros H. pick_rule H. apply and_also_true in Hcond.
    rewrite phase_is_iff, Z.eqb_eq in Hcond. exact Hcond.
  - intros H. exists (nth 3 CELESTIAL_EVENTS brokenRule).
    split; [cbn; auto 10|]. split; [reflexivity|].
    cbn [nth CELESTIAL_EVENTS ev_condition reading].
    apply and_also_true. rewrite phase_is_iff, Z.eqb_eq. exact H.
  - intros H. pick_rule H. cbn [date_month date_day] in Hcond.
    assert (Hb : (mo =? 8) && (d >=? 10) && (d <=? 15) = true) by congruence.
    apply andb_true_iff in Hb. destruct Hb as [Hb H15].
    apply andb_true_iff in Hb. destruct Hb as [H8 H10].
    apply Z.eqb_eq in H8. apply Z.geb_le in H10. apply Z.leb_le in H15. lia.
  - intros (H8 & H10 & H15). exists (nth 4 CELESTIAL_EVENTS brokenRule).
    split; [cbn; auto 10|]. split; [reflexivity|].
    cbn [nth CELESTIAL_EVENTS ev_condition date_month date_day].
    f_equal. apply andb_true_iff. split; [apply andb_true_iff; split|].
    + apply Z.eqb_eq. exact H8.
    + apply Z.geb_le. exact H10.
    + apply Z.leb_le. exact H15.
Qed.

(** X13. Which events are reported. With both moons present, the result
    holds "convergence" exactly when both phases are "full", "veils_eclipse"
    exactly when the primary is full and the secondary is on day 17,
    "void_night" exactly when both are new, "silver_tide" exactly when the
    primary is full on a day divisible by 7, and "starfall" exactly from day
    10 to day 15 of month 8. *)
Theorem checkCelestialEvents_ids (y mo d : Z) (l v : MoonState) :
  let ids := reportedIds (checkCelestialEvents (withMoons y mo d l v)) in
  (In "convergence" ids <-> phase l = Some "full" /\ phase v = Some "full") /\
  (In "veils_eclipse" ids <-> phase l = Some "full" /\ dayInCycle v = 17) /\
  (In "void_night" ids <-> phase l = Some "new" /\ phase v = Some "new") /\
  (In "silver_tide" ids <-> phase l = Some "full" /\ Z.rem (dayInCycle l) 7 = 0) /\
  (In "starfall" ids <-> mo = 8 /\ 10 <= d <= 15).
Proof. exact (checkCelestialEvents_ids_aux y mo d l v). Qed.

Lemma updateCelestialEffects_lines (m : Moons) :
  let lines := updateCelestialEffects m in
  (In "Convergence Night - All magical effects doubled" lines
   <-> phase_is (phase (lunara m)) "full" && phase_is (phase (veil m)) "full" = true) /\
  (In "Veil's Eclipse - Undead surge, shadow magic peaks" lines
   <-> phase_is (phase (lunara m)) "full" && (dayInCycle (veil m) =? VEIL_CYCLE / 2) = true) /\
  (In "Void Night - Near total darkness, aberrations stir" lines
   <-> phase_is (phase (lunara m)) "new" && phase_is (phase (veil m)) "new" = true).
Proof.
  cbv zeta. unfold updateCelestialEffects.
  destruct (phase_is (phase (lunara m)) "full" && phase_is (phase (veil m)) "full");
    destruct (phase_is (phase (lunara m)) "full" && (dayInCycle (veil m) =? VEIL_CYCLE / 2));
    destruct (phase_is (phase (lunara m)) "new" && phase_is (phase (veil m)) "new");
    cbn [app In];
    (split; [|split]); split; intros Hx;
      try reflexivity; try discriminate Hx; auto;
      repeat (destruct Hx as [Hx|Hx]; try discriminate Hx); try contradiction.
Qed.

(** X14. The two modules agree, and two alignments exclude each other.
    After a daily moon update, the effect lines the time engine stores say
    "Convergence Night", "Veil's Eclipse" and "Void Night" exactly when the
    tracker reports "convergence", "veils_eclipse" and "void_night" for the
    updated state; and convergence and eclipse never hold together, because
    on day 17, where the eclipse is, the secondary moon is not yet full. *)
Theorem celestial_effects_agree (s : TimeState) :
  let s' := fst (updateMoonPhases s) in
  let ids := reportedIds (checkCelestialEvents (view_of s')) in
  (In "Convergence Night - All magical effects doubled" (celestialEffects s')
   <-> In "convergence" ids) /\
  (In "Veil's Eclipse - Undead surge, shadow magic peaks" (celestialEffects s')
   <-> In "veils_eclipse" ids) /\
  (In "Void Night - Near total darkness, aberrations stir" (celestialEffects s')
   <-> In "void_night" ids) /\
  ~ (In "convergence" ids /\ In "veils_eclipse" ids).
Proof.
  cbv zeta.
  set (s' := fst (updateMoonPhases s)).
  pose proof (checkCelestialEvents_ids_aux (year s') (month s') (day s')
                (lunara (moons s')) (veil (moons s'))) as Hids.
  change (withMoons (year s') (month s') (day s') (lunara (moons s')) (veil (moons s')))
    with (view_of s') in Hids.
  destruct Hids as (Hconv & Hecl & Hvoid & _).
  assert (Heff : celestialEffects s' = updateCelestialEffects (moons s')) by reflexivity.
  pose proof (updateCelestialEffects_lines (moons s')) as (Lconv & Lecl & Lvoid).
  rewrite Heff, Lconv, Lecl, Lvoid, Hconv, Hecl, Hvoid.
  rewrite !andb_true_iff, !phase_is_iff, Z.eqb_eq.
  change (VEIL_CYCLE / 2) with 17.
  split; [reflexivity|]. split; [reflexivity|]. split; [reflexivity|].
  intros ((_ & Hfull) & (_ & H17)).
  assert (Hphase : phase (veil (moons s')) = Some "waxing_gibbous").
  { unfold s', updateMoonPhases in *. cbn [fst moons veil] in *.
    unfold advanceVeil in *. cbn [phase dayInCycle] in *. rewrite H17. reflexivity. }
  rewrite Hphase in Hfull. discriminate.
Qed.

(** ** Festivals *)

Lemma findCurrentFestival_some (fs : list Festival) (mo d : Z) (cf : CurrentFestival) :
  findCurrentFestival fs mo d = Some cf ->
  In (cf_festival cf) fs /\
  f_month (cf_festival cf) = mo /\
  f_day (cf_festival cf) <= d < f_day (cf_festival cf) + f_duration (cf_festival cf) /\
  dayOfFestival cf = d - f_day (cf_festival cf) + 1 /\
  isLastDay cf = (d =? f_day (cf_festival cf) + f_duration (cf_festival cf) - 1).
Proof.
  induction fs as [|f fs IH]; cbn [findCurrentFestival]; [discriminate|].
  destruct ((f_month f =? mo) && (d >=? f_day f) && (d <? f_day f + f_duration f)) eqn:Hc.
  - intros H. injection H as <-. cbn [cf_festival dayOfFestival isLastDay].
    apply andb_prop in Hc. destruct Hc as [Hc Hlt]. apply andb_prop in Hc.
    destruct Hc as [Hm Hge].
    apply Z.eqb_eq in Hm. apply Z.geb_le in Hge. apply Z.ltb_lt in Hlt.
    split; [left; reflexivity|]. split; [exact Hm|]. split; [lia|]. split; reflexivity.
  - intros H. destruct (IH H) as (Hin & Hrest). split; [right; exact Hin | exact Hrest].
Qed.

Lemma findCurrentFestival_none (fs : list Festival) (mo d : Z) :
  findCurrentFestival fs mo d = None <->
  forall f, In f fs -> ~ (f_month f = mo /\ f_day f <= d < f_day f + f_duration f).
Proof.
  induction fs as [|f fs IH]; cbn [findCurrentFestival].
  - split; [intros _ f [] | reflexivity].
  - destruct ((f_month f =? mo) && (d >=? f_day f) && (d <? f_day f + f_duration f)) eqn:Hc.
    + split; [discriminate|]. intros Hno. exfalso. apply (Hno f (or_introl eq_refl)).
      apply andb_prop in Hc. destruct Hc as [Hc Hlt]. apply andb_prop in Hc.
      destruct Hc as [Hm Hge].
      apply Z.eqb_eq in Hm. apply Z.geb_le in Hge. apply Z.ltb_lt in Hlt. lia.
    + rewrite IH. split.
      * intros Hno g [<-|Hg]; [|apply Hno; exact Hg].
        intros (Hm & Hge & Hlt).
        assert (Ht : (f_month f =? mo) && (d >=? f_day f) && (d <? f_day f + f_duration f)
                     = true).
        { apply andb_true_iff. split; [apply andb_true_iff; split|].
          - apply Z.eqb_eq. exact Hm.
          - apply Z.geb_le. exact Hge.
          - apply Z.ltb_lt. exact Hlt. }
        congruence.
      * intros Hno g Hg. apply Hno. right. exact Hg.
Qed.

(** No two festivals of the table share a day. *)
Lemma FESTIVALS_disjoint (f g : Festival) (timeState : TimeView) :
  In f FESTIVALS -> In g FESTIVALS -> covers f timeState -> covers g timeState -> f = g.
Proof.
  unfold covers, FESTIVALS. cbn [In].
  intros Hf Hg.
  repeat (destruct Hf as [Hf|Hf]; [subst f|]); try contradiction;
    repeat (destruct Hg as [Hg|Hg]; [subst g|]); try contradiction;
    cbn [f_month f_day f_duration]; intros (Hm & Hd) (Hm' & Hd');
    try reflexivity; lia.
Qed.

(** X15. The festival of the day. A date covered by a festival of the
    table gets that festival, with the day of the festival counted from 1 up
    to its duration and the last-day flag set exactly on the last of them;
    and no festival is reported exactly when none covers the date. *)
Theorem getCurrentFestival_covers (timeState : TimeView) (f : Festival) :
  In f FESTIVALS -> covers f timeState ->
  (exists cf,
      getCurrentFestival timeState = Some cf /\ cf_festival cf = f /\
      dayOfFestival cf = v_day timeState - f_day f + 1 /\
      1 <= dayOfFestival cf <= f_duration f /\
      (isLastDay cf = true <-> dayOfFestival cf = f_duration f)) /\
  (forall timeState',
      getCurrentFestival timeState' = None <->
      forall g, In g FESTIVALS -> ~ covers g timeState').
Proof.
  intros Hin Hcov. split.
  - destruct (getCurrentFestival timeState) as [cf|] eqn:Hget.
    + unfold getCurrentFestival in Hget.
      destruct (findCurrentFestival_some _ _ _ _ Hget) as (Hcf & Hm & Hd & Hday & Hlast).
      assert (Hsame : cf_festival cf = f).
      { apply (FESTIVALS_disjoint _ _ timeState Hcf Hin); [split; assumption | exact Hcov]. }
      exists cf. split; [reflexivity|]. split; [exact Hsame|].
      rewrite Hsame in Hd, Hday, Hlast. split; [exact Hday|]. split; [lia|].
      rewrite Hlast, Z.eqb_eq. lia.
    + exfalso. unfold getCurrentFestival in Hget.
      rewrite findCurrentFestival_none in Hget. apply (Hget f Hin). exact Hcov.
  - intros ts'. unfold getCurrentFestival, covers. apply findCurrentFestival_none.
Qed.

Lemma getCurrentFestival_covers_witness :
  exists cf,
    getCurrentFestival (mkView 2847 8 22 None) = Some cf /\
    f_name (cf_festival cf) = "Harvest Moon Festival" /\
    dayOfFestival cf = 3 /\ (isLastDay cf = true <-> dayOfFestival cf = 3).
Proof.
  destruct (getCurrentFestival_covers (mkView 2847 8 22 None) (nth 4 FESTIVALS thawFestival))
    as ((cf & Hget & Hf & Hday & _ & Hlast) & _).
  - cbn. auto 10.
  - unfold covers. cbn. lia.
  - exists cf. split; [exact Hget|]. split; [rewrite Hf; reflexivity|].
    split; [exact Hday | exact Hlast].
Defined.

(** X16. Festivals the calendar cannot reach. On a date whose day lies
    within its month, the festival of the day is never "Veilnight" (day 31
    of a month of 30 days), and the second day of "Year's End" (day 30 of
    month 12) occurs only in years divisible by four. *)
Theorem getCurrentFestival_unreachable (timeState : TimeView) (cf : CurrentFestival) :
  1 <= v_day timeState <= getMonthLength (v_month timeState) (v_year timeState) ->
  getCurrentFestival timeState = Some cf ->
  f_name (cf_festival cf) <> "Veilnight" /\
  (f_name (cf_festival cf) = "Year's End" -> dayOfFestival cf = 2 ->
   Z.rem (v_year timeState) 4 = 0).
Proof.
  intros Hvalid Hget. unfold getCurrentFestival in Hget.
  destruct (findCurrentFestival_some _ _ _ _ Hget) as (Hin & Hm & Hd & Hday & _).
  unfold FESTIVALS in Hin. cbn [In] in Hin.
  repeat (destruct Hin as [Hin|Hin];
          [rewrite <- Hin in *; cbn [f_name f_month f_day f_duration] in *|]);
    try contradiction;
    (split; [try discriminate | try discriminate]).
  - intros _. rewrite <- Hm in Hvalid.
    change (getMonthLength 10 (v_year timeState)) with 30 in Hvalid. lia.
  - intros _ H2. rewrite <- Hm in Hvalid. rewrite getMonthLength_leap in Hvalid.
    destruct (Z.rem (v_year timeState) 4 =? 0) eqn:E; [apply Z.eqb_eq in E; exact E | lia].
Qed.

Lemma getCurrentFestival_unreachable_witness :
  exists cf,
    getCurrentFestival (mkView 2848 12 30 None) = Some cf /\
    f_name (cf_festival cf) <> "Veilnight" /\ Z.rem 2848 4 = 0.
Proof.
  eexists. split; [reflexivity|].
  destruct (getCurrentFestival_unreachable (mkView 2848 12 30 None)
              {| cf_festival := nth 7 FESTIVALS thawFestival; dayOfFestival := 2;
                 isLastDay := true |}) as (Hnot & Hleap).
  - vm_compute. split; discriminate.
  - reflexivity.
  - split; [exact Hnot|]. apply Hleap; reflexivity.
Defined.

(** * The core state and the event bus *)

(** ** Domain ownership *)

Lemma knownDomain_not_inherited (d : string) :
  Core.knownDomain d = true -> inherited d = false.
Proof.
  unfold Core.knownDomain. intros H. apply existsb_exists in H.
  destruct H as (x & Hx & E). apply String.eqb_eq in E. subst x.
  cbn [In Core.DEFAULT_DOMAINS] in Hx.
  repeat (destruct Hx as [<-|Hx]; [reflexivity|]). destruct Hx.
Qed.

Lemma inherited_not_known (d : string) :
  inherited d = true -> Core.knownDomain d = false.
Proof.
  intros H. destruct (Core.knownDomain d) eqn:E; [|reflexivity].
  apply knownDomain_not_inherited in E. congruence.
Qed.

Lemma ownerOf_set (o : Core.Owners) (d a : string) :
  a <> "" -> Core.ownerOf (Core.setOwner o d a) d = Some (Core.Extension a).
Proof.
  intros Ha. unfold Core.ownerOf, Core.lookupOwner, Core.setOwner. rewrite String.eqb_refl.
  destruct (String.eqb a "") eqn:E; [apply String.eqb_eq in E; contradiction | reflexivity].
Qed.

(** X20. A domain has one owner. Once an extension with a non-empty id has
    registered a domain, it is the owner; another extension cannot register
    the domain, cannot unregister it, and its writes to the domain are
    refused and change nothing. *)
Theorem registerDomain_exclusive (V : Type) (o : Core.Owners) (domain a b : string)
        (full : Core.FullState V) (data : V) (saves : bool) :
  a <> "" -> b <> a ->
  fst (Core.registerDomain domain a o) = true ->
  let o' := snd (Core.registerDomain domain a o) in
  Core.isDomainOwner domain a o' = true /\
  Core.isDomainOwner domain b o' = false /\
  Core.getDomainOwner domain o' = Some (Core.Extension a) /\
  Core.registerDomain domain b o' = (false, o') /\
  Core.unregisterDomain domain b o' = o' /\
  Core.setDomainState domain data b saves (Core.mkCore o' full)
  = Core.mkWrite false (Core.mkCore o' full) false.
Proof.
  intros Ha Hb Hreg. unfold Core.registerDomain in *.
  destruct (negb (Core.knownDomain domain)) eqn:Hknown; [discriminate|].
  destruct (Core.ownedByOther o domain a); [discriminate|]. cbn [snd].
  assert (Howner : Core.ownerOf (Core.setOwner o domain a) domain = Some (Core.Extension a))
    by (apply ownerOf_set; exact Ha).
  assert (Hne : String.eqb a b = false)
    by (apply String.eqb_neq; intros E; apply Hb; symmetry; exact E).
  assert (Hother : Core.ownedByOther (Core.setOwner o domain a) domain b = true)
    by (unfold Core.ownedByOther; rewrite Howner, Hne; reflexivity).
  assert (Hraw : Core.lookupOwner (Core.setOwner o domain a) domain = Some (Core.Extension a))
    by (unfold Core.lookupOwner, Core.setOwner; rewrite String.eqb_refl; reflexivity).
  assert (Hnot : Core.isDomainOwner domain b (Core.setOwner o domain a) = false)
    by (unfold Core.isDomainOwner; rewrite Hraw; exact Hne).
  split; [unfold Core.isDomainOwner; rewrite Hraw; apply String.eqb_refl|].
  split; [exact Hnot|].
  split; [exact Howner|].
  split; [rewrite Hother; reflexivity|].
  split.
  - unfold Core.unregisterDomain. rewrite Hnot. reflexivity.
  - unfold Core.setDomainState. cbn [Core.owners]. rewrite Hother. reflexivity.
Qed.

Lemma registerDomain_exclusive_witness :
  Core.registerDomain "time" "other" (snd (Core.registerDomain "time" "vtc" Core.noOwners))
  = (false, snd (Core.registerDomain "time" "vtc" Core.noOwners)).
Proof.
  destruct (registerDomain_exclusive nat Core.noOwners "time" "vtc" "other"
                                     (Core.defaultState nat) 0%nat true)
    as (_ & _ & _ & Hreg & _).
  - discriminate.
  - discriminate.
  - reflexivity.
  - exact Hreg.
Defined.

(** X21. A write reads back. An awaited write to a domain that no other
    extension owns succeeds when the host saves: the domain then reads as
    the data written, every other domain reads as before, and a writer with
    a non-empty id holds a known domain afterwards. When the host's save
    fails the write reports failure, but the domain already reads as the
    new data. *)
Theorem setDomainState_reads_back (V : Type) (c : Core.CoreState V)
        (domain extensionId : string) (data : V) :
  Core.ownedByOther (Core.owners c) domain extensionId = false ->
  let w := Core.setDomainState domain data extensionId true c in
  let w' := Core.setDomainState domain data extensionId false c in
  Core.written w = true /\
  Core.getDomainState domain (Core.after w) = Core.Data data /\
  (forall d, d <> domain ->
             Core.getDomainState d (Core.after w) = Core.getDomainState d c) /\
  (Core.knownDomain domain = true -> extensionId <> "" ->
   Core.getDomainOwner domain (Core.owners (Core.after w))
   = Some (Core.Extension extensionId)) /\
  Core.written w' = false /\
  Core.getDomainState domain (Core.after w') = Core.Data data.
Proof.
  intros Hfree. cbv zeta. unfold Core.setDomainState. rewrite Hfree.
  cbn [Core.written Core.after Core.owners Core.fullState].
  assert (Hread : forall o, Core.getDomainState domain
                              (Core.mkCore o (Core.writeDomain V (Core.fullState c) domain data))
                            = Core.Data data).
  { intros o. unfold Core.getDomainState, Core.writeDomain. cbn [Core.fullState].
    rewrite String.eqb_refl. reflexivity. }
  split; [reflexivity|]. split; [apply Hread|]. split; [|split; [|split; [reflexivity|apply Hread]]].
  - intros d Hd. unfold Core.getDomainState, Core.writeDomain. cbn [Core.fullState].
    assert (Hne : String.eqb d domain = false) by (apply String.eqb_neq; exact Hd).
    rewrite Hne. reflexivity.
  - intros Hknown Hid. unfold Core.getDomainOwner.
    destruct (Core.ownerOf (Core.owners c) domain) as [x|] eqn:Hown.
    + unfold Core.ownedByOther in Hfree. rewrite Hown in Hfree.
      destruct x as [x|]; [|discriminate].
      apply negb_false_iff, String.eqb_eq in Hfree. subst x. exact Hown.
    + unfold Core.registerDomain. rewrite Hknown, Hfree. cbn [negb snd].
      apply ownerOf_set. exact Hid.
Qed.

Lemma setDomainState_reads_back_witness :
  Core.getDomainState "time"
    (Core.after (Core.setDomainState "time" 7%nat "vtc" true
                   (Core.mkCore Core.noOwners (Core.defaultState nat))))
  = Core.Data 7%nat.
Proof.
  destruct (setDomainState_reads_back nat (Core.mkCore Core.noOwners (Core.defaultState nat))
                                      "time" "vtc" 7%nat)
    as (_ & Hread & _).
  - reflexivity.
  - exact Hread.
Defined.

(** X22. An unknown domain is nobody's. An awaited write to a domain that
    is not among the default ones and has no owner succeeds for any
    extension and leaves the domain without an owner, so a second extension
    can overwrite it. *)
Theorem setDomainState_unknown_domain (V : Type) (c : Core.CoreState V)
        (domain a b : string) (x y : V) :
  Core.knownDomain domain = false ->
  Core.getDomainOwner domain (Core.owners c) = None ->
  let w1 := Core.setDomainState domain x a true c in
  let w2 := Core.setDomainState domain y b true (Core.after w1) in
  Core.written w1 = true /\
  Core.getDomainOwner domain (Core.owners (Core.after w1)) = None /\
  Core.written w2 = true /\
  Core.getDomainState domain (Core.after w2) = Core.Data y.
Proof.
  unfold Core.getDomainOwner. intros Hunknown Hfree. cbv zeta.
  assert (Hno : forall e, Core.ownedByOther (Core.owners c) domain e = false)
    by (intros e; unfold Core.ownedByOther; rewrite Hfree; reflexivity).
  assert (Hw1 : Core.setDomainState domain x a true c
                = Core.mkWrite true
                    (Core.mkCore (Core.owners c) (Core.writeDomain V (Core.fullState c) domain x))
                    true).
  { unfold Core.setDomainState. rewrite (Hno a), Hfree.
    unfold Core.registerDomain. rewrite Hunknown. reflexivity. }
  rewrite Hw1. cbn [Core.after Core.owners Core.written].
  split; [reflexivity|]. split; [exact Hfree|].
  unfold Core.setDomainState. cbn [Core.owners Core.fullState]. rewrite (Hno b), Hfree.
  unfold Core.registerDomain. rewrite Hunknown.
  cbn [negb snd Core.after Core.owners Core.written].
  split; [reflexivity|].
  unfold Core.getDomainState, Core.writeDomain. cbn [Core.fullState].
  rewrite String.eqb_refl. reflexivity.
Qed.

Lemma setDomainState_unknown_domain_witness :
  Core.getDomainState "quests"
    (Core.after
       (Core.setDomainState "quests" 2%nat "b" true
          (Core.after (Core.setDomainState "quests" 1%nat "a" true
                         (Core.mkCore Core.noOwners (Core.defaultState nat))))))
  = Core.Data 2%nat.
Proof.
  destruct (setDomainState_unknown_domain nat
              (Core.mkCore Core.noOwners (Core.defaultState nat)) "quests" "a" "b" 1%nat 2%nat)
    as (_ & _ & _ & Hread).
  - reflexivity.
  - reflexivity.
  - exact Hread.
Defined.

(** X23. A domain named like a property every object inherits (such as
    [constructor]) belongs to nobody and can be claimed by nobody: as long
    as no such key was assigned, registering it fails, every write to it is
    refused and changes nothing, its owner reads as the inherited property
    and so does its state, where a domain without data reads as [null]. *)
Theorem setDomainState_inherited_name (V : Type) (c : Core.CoreState V)
        (domain extensionId : string) (data : V) (saves : bool) :
  inherited domain = true ->
  Core.owners c domain = None ->
  Core.fullState c domain = None ->
  Core.registerDomain domain extensionId (Core.owners c) = (false, Core.owners c) /\
  Core.setDomainState domain data extensionId saves c = Core.mkWrite false c false /\
  Core.isDomainOwner domain extensionId (Core.owners c) = false /\
  Core.getDomainOwner domain (Core.owners c) = Some Core.Builtin /\
  Core.getDomainState domain c = Core.Inherited.
Proof.
  intros Hin Hown Hfull.
  assert (Hlook : Core.lookupOwner (Core.owners c) domain = Some Core.Builtin)
    by (unfold Core.lookupOwner; rewrite Hown, Hin; reflexivity).
  assert (Hother : Core.ownedByOther (Core.owners c) domain extensionId = true)
    by (unfold Core.ownedByOther, Core.ownerOf; rewrite Hlook; reflexivity).
  split; [unfold Core.registerDomain; rewrite (inherited_not_known domain Hin); reflexivity|].
  split; [unfold Core.setDomainState; rewrite Hother; reflexivity|].
  split; [unfold Core.isDomainOwner; rewrite Hlook; reflexivity|].
  split; [unfold Core.getDomainOwner, Core.ownerOf; rewrite Hlook; reflexivity|].
  unfold Core.getDomainState. rewrite Hfull, Hin. reflexivity.
Qed.

Lemma setDomainState_inherited_name_witness :
  Core.setDomainState "constructor" 1%nat "vtc" true
    (Core.mkCore Core.noOwners (Core.defaultState nat))
  = Core.mkWrite false (Core.mkCore Core.noOwners (Core.defaultState nat)) false.
Proof.
  destruct (setDomainState_inherited_name nat
              (Core.mkCore Core.noOwners (Core.defaultState nat)) "constructor" "vtc" 1%nat true)
    as (_ & Hw & _).
  - reflexivity.
  - reflexivity.
  - reflexivity.
  - exact Hw.
Defined.

(** ** The event bus *)

Lemma tl_skipn (A : Type) (n : nat) (l : list A) : tl (skipn n l) = skipn (S n) l.
Proof.
  revert l. induction n as [|n IH]; intros l.
  - destruct l; reflexivity.
  - destruct l as [|x l]; [reflexivity|]. cbn [skipn]. rewrite IH. reflexivity.
Qed.

Lemma trim_skipn (h : list Bus.HistoryEntry) :
  Bus.trim h = skipn (List.length h - Bus.MAX_HISTORY) h.
Proof.
  unfold Bus.trim.
  assert (Hgen : forall fuel k,
            (k + fuel = List.length h)%nat \/ (List.length h <= Bus.MAX_HISTORY + k)%nat ->
            (k <= List.length h - Bus.MAX_HISTORY)%nat ->
            while fuel (fun h => (Bus.MAX_HISTORY <? List.length h)%nat) (fun h => tl h)
                  (skipn k h)
            = skipn (List.length h - Bus.MAX_HISTORY) h).
  { induction fuel as [|fuel IH]; intros k Hk Hle.
    - cbn [while]. f_equal. destruct Hk as [Hk|Hk]; [|lia].
      unfold Bus.MAX_HISTORY in *. lia.
    - cbn [while]. rewrite length_skipn.
      destruct (Bus.MAX_HISTORY <? List.length h - k)%nat eqn:Hc.
      + apply Nat.ltb_lt in Hc. rewrite tl_skipn. apply IH; [|lia].
        destruct Hk as [Hk|Hk]; [left; lia | right; lia].
      + apply Nat.ltb_ge in Hc. f_equal. lia. }
  apply (Hgen (List.length h) 0%nat); [left; lia | lia].
Qed.

Lemma onArray_own (A : Type) (event : string) (a : A) :
  inherited event = false -> Bus.onArray event a = Returned a.
Proof. intros H. unfold Bus.onArray. rewrite H. reflexivity. Qed.

(** X24. The event history keeps the newest fifty. An emit of an event
    whose name is not an inherited property name returns, and afterwards
    the history is the old one extended by the new entry and cut at the
    front to at most 50 entries; the new entry is its last and records how
    many listeners the event had. Listeners of other events are
    untouched. *)
Theorem emit_history (event : string) (b : Bus.BusState) :
  inherited event = false ->
  exists called b',
    Bus.emit event b = Returned (called, b') /\
    let entry := Bus.mkEntry event (List.length (Bus.listeners b event)) in
    Bus.eventHistory b'
    = skipn (List.length (Bus.eventHistory b) + 1 - Bus.MAX_HISTORY)
            (Bus.eventHistory b ++ [entry])
    /\ (List.length (Bus.eventHistory b') <= Bus.MAX_HISTORY)%nat
    /\ last (Bus.eventHistory b') entry = entry
    /\ (forall e, e <> event -> Bus.listeners b' e = Bus.listeners b e).
Proof.
  intros Hown. unfold Bus.emit. rewrite (onArray_own _ _ _ Hown).
  eexists. eexists. split; [reflexivity|].
  cbv zeta. cbn [Bus.eventHistory Bus.listeners].
  rewrite trim_skipn, length_app. cbn [List.length].
  set (h := Bus.eventHistory b).
  set (entry := Bus.mkEntry event (List.length (Bus.listeners b event))).
  split; [reflexivity|]. split; [rewrite length_skipn, length_app; cbn [List.length]; lia|].
  split.
  - assert (Hlast : forall (l : list Bus.HistoryEntry) n, (n <= List.length l)%nat ->
                      last (skipn n (l ++ [entry])) entry = entry).
    { intros l. induction l as [|x l IH]; intros n Hn.
      - destruct n; [reflexivity | cbn in Hn; lia].
      - destruct n as [|n].
        + cbn [skipn]. apply last_last.
        + cbn [skipn app]. apply IH. cbn in Hn. lia. }
    apply Hlast. unfold Bus.MAX_HISTORY. lia.
  - intros e He. unfold Bus.setListeners.
    assert (Hne : String.eqb e event = false) by (apply String.eqb_neq; exact He).
    rewrite Hne. reflexivity.
Qed.

Lemma emit_history_witness :
  exists called b',
    Bus.emit "newDay" (Bus.mkBus (fun _ => []) []) = Returned (called, b') /\
    Bus.eventHistory b' = [Bus.mkEntry "newDay" 0].
Proof.
  destruct (emit_history "newDay" (Bus.mkBus (fun _ => []) [])) as (called & b' & He & Hh & _).
  - reflexivity.
  - exists called, b'. split; [exact He | exact Hh].
Defined.

Lemma filter_kept_idem (l : list Bus.Listener) :
  filter (fun l => negb (Bus.once l && Bus.returns l))
         (filter (fun l => negb (Bus.once l && Bus.returns l)) l)
  = filter (fun l => negb (Bus.once l && Bus.returns l)) l.
Proof.
  induction l as [|x l IH]; [reflexivity|]. cbn [filter].
  destruct (negb (Bus.once x && Bus.returns x)) eqn:E; [|exact IH].
  cbn [filter]. rewrite E, IH. reflexivity.
Qed.

(** X25. One-time listeners. An emit calls every listener of the event
    once, in the order they were added. A second emit of the same event
    calls those that are not one-time or whose callback threw: a one-time
    listener whose callback throws stays registered. After the first emit
    the listeners no longer change. (Callbacks that always behave the same
    way and leave the bus alone; an event name that is not an inherited
    property name.) *)
Theorem emit_once_listeners (event : string) (b : Bus.BusState) :
  inherited event = false ->
  exists c1 b1 c2 b2 c3 b3,
    Bus.emit event b = Returned (c1, b1) /\
    Bus.emit event b1 = Returned (c2, b2) /\
    Bus.emit event b2 = Returned (c3, b3) /\
    c1 = map Bus.callback (Bus.listeners b event) /\
    c2 = map Bus.callback
             (filter (fun l => negb (Bus.once l) || negb (Bus.returns l))
                     (Bus.listeners b event)) /\
    c3 = c2 /\
    Bus.listeners b2 event = Bus.listeners b1 event.
Proof.
  intros Hown. unfold Bus.emit. rewrite !(onArray_own _ _ _ Hown).
  do 6 eexists. split; [reflexivity|].
  cbn [Bus.listeners Bus.eventHistory]. rewrite (onArray_own _ _ _ Hown).
  split; [reflexivity|].
  cbn [Bus.listeners Bus.eventHistory]. rewrite (onArray_own _ _ _ Hown).
  split; [reflexivity|].
  unfold Bus.setListeners. rewrite !String.eqb_refl.
  assert (Hsame : forall l : list Bus.Listener,
            filter (fun l => negb (Bus.once l && Bus.returns l)) l
            = filter (fun l => negb (Bus.once l) || negb (Bus.returns l)) l).
  { intros l. apply filter_ext. intros x. apply negb_andb. }
  split; [reflexivity|]. split; [rewrite Hsame; reflexivity|].
  split; [rewrite filter_kept_idem; reflexivity | apply filter_kept_idem].
Qed.

Lemma emit_once_listeners_witness :
  exists c1 b1 c2 b2,
    Bus.emit "newDay"
      (Bus.mkBus (fun _ => [Bus.mkListener 1 true true None; Bus.mkListener 2 false true None;
                            Bus.mkListener 3 true false None]) [])
    = Returned (c1, b1) /\
    Bus.emit "newDay" b1 = Returned (c2, b2) /\
    c1 = [1; 2; 3]%nat /\ c2 = [2; 3]%nat.
Proof.
  destruct (emit_once_listeners "newDay"
              (Bus.mkBus (fun _ => [Bus.mkListener 1 true true None;
                                    Bus.mkListener 2 false true None;
                                    Bus.mkListener 3 true false None]) []))
    as (c1 & b1 & c2 & b2 & c3 & b3 & E1 & E2 & _ & H1 & H2 & _).
  - reflexivity.
  - exists c1, b1, c2, b2. split; [exact E1|]. split; [exact E2|].
    split; [exact H1 | exact H2].
Defined.

(** X26. Adding and removing a listener. For an event name that is not an
    inherited property name, adding a listener puts it last in the calling
    order, and removing its callback right after, when the callback was not
    registered for the event before, leaves the listeners of every event as
    they were. *)
Theorem on_off_round_trip (event : string) (l : Bus.Listener) (b : Bus.BusState) :
  inherited event = false ->
  (forall x, In x (Bus.listeners b event) -> Bus.callback x <> Bus.callback l) ->
  exists b1 b2 b3,
    Bus.on event l b = Returned b1 /\
    Bus.off event (Bus.callback l) b1 = Returned b2 /\
    (forall e, Bus.listeners b2 e = Bus.listeners b e) /\
    Bus.emit event b1
    = Returned (map Bus.callback (Bus.listeners b event) ++ [Bus.callback l], b3).
Proof.
  intros Hown Hfresh. unfold Bus.off, Bus.on, Bus.emit.
  rewrite !(onArray_own _ _ _ Hown). do 3 eexists.
  split; [reflexivity|]. cbn [Bus.listeners Bus.eventHistory].
  rewrite !(onArray_own _ _ _ Hown). split; [reflexivity|].
  unfold Bus.setListeners. rewrite !String.eqb_refl. split.
  - intros e. cbn [Bus.listeners]. destruct (String.eqb e event) eqn:He; [|reflexivity].
    apply String.eqb_eq in He. subst e.
    rewrite filter_app. cbn [filter]. rewrite Nat.eqb_refl. cbn [negb].
    rewrite app_nil_r.
    induction (Bus.listeners b event) as [|x ls IH]; [reflexivity|].
    cbn [filter].
    assert (Hx : Nat.eqb (Bus.callback x) (Bus.callback l) = false).
    { apply Nat.eqb_neq. apply Hfresh. left. reflexivity. }
    rewrite Hx. cbn [negb]. f_equal. apply IH. intros y Hy. apply Hfresh. right. exact Hy.
  - rewrite map_app. reflexivity.
Qed.

Lemma on_off_round_trip_witness :
  exists b1 b2,
    Bus.on "newDay" (Bus.mkListener 1 true false None) (Bus.mkBus (fun _ => []) [])
    = Returned b1 /\
    Bus.off "newDay" 1%nat b1 = Returned b2 /\
    Bus.listeners b2 "newDay" = [].
Proof.
  destruct (on_off_round_trip "newDay" (Bus.mkListener 1 true false None)
                              (Bus.mkBus (fun _ => []) []))
    as (b1 & b2 & _ & Hon & Hoff & Hsame & _).
  - reflexivity.
  - intros x [].
  - exists b1, b2. split; [exact Hon|]. split; [exact Hoff|]. apply Hsame.
Defined.

(** * Time display *)

Lemma zrange_In (n : nat) (z : Z) : 0 <= z < Z.of_nat n -> In z (zrange n).
Proof.
  intros Hz. unfold zrange. apply in_map_iff. exists (Z.to_nat z).
  split; [lia|]. apply in_seq. lia.
Qed.

Lemma readTime_formatTime :
  forallb (fun h => forallb (fun m =>
             match readTime (formatTime h m), readTime24 (formatTime24 h m) with
             | Some (h1, m1), Some (h2, m2) =>
                 (h1 =? h) && (m1 =? m) && (h2 =? h) && (m2 =? m)
             | _, _ => false
             end) (zrange 60)) (zrange 24) = true.
Proof. vm_compute. reflexivity. Qed.

Lemma readTime_valid (h m : Z) :
  0 <= h <= 23 -> 0 <= m <= 59 ->
  readTime (formatTime h m) = Some (h, m) /\ readTime24 (formatTime24 h m) = Some (h, m).
Proof.
  intros Hh Hm. pose proof readTime_formatTime as Hall.
  rewrite forallb_forall in Hall. specialize (Hall h (zrange_In 24 h ltac:(lia))).
  rewrite forallb_forall in Hall. specialize (Hall m (zrange_In 60 m ltac:(lia))).
  destruct (readTime (formatTime h m)) as [[h1 m1]|]; [|discriminate].
  destruct (readTime24 (formatTime24 h m)) as [[h2 m2]|]; [|discriminate].
  apply andb_prop in Hall. destruct Hall as [Hall H4]. apply andb_prop in Hall.
  destruct Hall as [Hall H3]. apply andb_prop in Hall. destruct Hall as [H1 H2].
  apply Z.eqb_eq in H1, H2, H3, H4. subst. split; reflexivity.
Qed.

(** X27. The time displays are unambiguous. For hours in [0,23] and
    minutes in [0,59], two times with the same 12-hour display are the same
    time, and likewise for the 24-hour display; midnight shows as
    "12:00 AM" and noon as "12:00 PM". *)
Theorem formatTime_unambiguous (h m h' m' : Z) :
  0 <= h <= 23 -> 0 <= m <= 59 -> 0 <= h' <= 23 -> 0 <= m' <= 59 ->
  (formatTime h m = formatTime h' m' -> h = h' /\ m = m') /\
  (formatTime24 h m = formatTime24 h' m' -> h = h' /\ m = m') /\
  formatTime 0 0 = "12:00 AM" /\ formatTime 12 0 = "12:00 PM".
Proof.
  intros Hh Hm Hh' Hm'.
  destruct (readTime_valid h m Hh Hm) as (R1 & R2).
  destruct (readTime_valid h' m' Hh' Hm') as (R1' & R2').
  split; [|split; [|split; reflexivity]].
  - intros E. rewrite E in R1. rewrite R1 in R1'. injection R1' as -> ->. split; reflexivity.
  - intros E. rewrite E in R2. rewrite R2 in R2'. injection R2' as -> ->. split; reflexivity.
Qed.

Lemma formatTime_unambiguous_witness :
  formatTime 0 0 = "12:00 AM" /\ formatTime 12 0 = "12:00 PM".
Proof.
  destruct (formatTime_unambiguous 18 0 6 0) as (_ & _ & Hmidnight & Hnoon); try lia.
  split; [exact Hmidnight | exact Hnoon].
Defined.
